(** * Shallow embedding of the analysis core of [oscilloscope_analyzer.py]

    The code under verification is [AnalysisWorker.load_csv_data],
    [AnalysisWorker.calculate_analysis], [AnalysisWorker.calculate_ringdown],
    [AnalysisWorker.run] and [OscilloscopeAnalyzer.evaluate_pass_fail].
    Python floats are modelled as real numbers; Python exceptions as the
    error branch of a small result monad. *)

From Stdlib Require Import Reals Lra Lia List String Ascii Bool ZArith.
Import ListNotations.
Open Scope R_scope.

(** ** Python exceptions and a small error monad *)

Inductive exn : Type :=
  | ValueError (msg : string)
  | IndexError
  | OverflowError.

Inductive result (A : Type) : Type :=
  | Ok (a : A)
  | Err (e : exn).
Arguments Ok {A} a.
Arguments Err {A} e.

Definition bind {A B} (m : result A) (k : A -> result B) : result B :=
  match m with
  | Ok a => k a
  | Err e => Err e
  end.

Notation "x <- m ;; k" := (bind m (fun x => k))
  (at level 61, m at next level, right associativity).

(** ** Decidable comparisons on floats *)

Definition Rltb (x y : R) : bool := if Rlt_dec x y then true else false.
Definition Rleb (x y : R) : bool := if Rle_dec x y then true else false.
Definition Reqb (x y : R) : bool := if Req_dec_T x y then true else false.

(** ** Strings: [in], [strip] and [split(',')] *)

Open Scope string_scope.

Fixpoint starts_with (p s : string) : bool :=
  match p, s with
  | EmptyString, _ => true
  | String a p', String b s' => Ascii.eqb a b && starts_with p' s'
  | String _ _, EmptyString => false
  end.

(** [p in s] for Python strings. *)
Fixpoint str_contains (p s : string) : bool :=
  starts_with p s ||
  match s with
  | EmptyString => false
  | String _ s' => str_contains p s'
  end.

(** ASCII characters for which [str.isspace] holds. *)
Definition is_space (c : ascii) : bool :=
  let n := nat_of_ascii c in
  (Nat.eqb n 32) || ((9 <=? n) && (n <=? 13))%nat || ((28 <=? n) && (n <=? 31))%nat.

Fixpoint lstrip (s : string) : string :=
  match s with
  | EmptyString => EmptyString
  | String c s' => if is_space c then lstrip s' else s
  end.

Definition rev_string (s : string) : string :=
  string_of_list_ascii (rev (list_ascii_of_string s)).

(** [str.strip()] *)
Definition strip (s : string) : string :=
  rev_string (lstrip (rev_string (lstrip s))).

(** [str.split(sep)] with a one-character separator: the pieces between
    separators, empty pieces kept. *)
Fixpoint split_on (sep : ascii) (s : string) : list string :=
  match s with
  | EmptyString => [EmptyString]
  | String c s' =>
      if Ascii.eqb c sep then EmptyString :: split_on sep s'
      else match split_on sep s' with
           | [] => [String c EmptyString]
           | w :: ws => String c w :: ws
           end
  end.

(** ** [float(str)]

    Decimal literals: surrounding whitespace, an optional sign, digits with
    an optional fractional part (at least one digit in all) and an optional
    exponent.  The spellings [inf] and [nan], digit-group underscores and
    literals of magnitude [2^1024 - 2^970] or more, which [float()] reads as
    [inf], have no counterpart among the reals and are outside this model. *)

Definition digit_val (c : ascii) : option Z :=
  let n := nat_of_ascii c in
  if ((48 <=? n) && (n <=? 57))%nat then Some (Z.of_nat (n - 48)) else None.

(** Reads a run of digits; returns the value, the number of digits and the
    rest of the string. *)
Fixpoint read_digits (s : string) (acc : Z) (cnt : nat) : Z * nat * string :=
  match s with
  | String c s' =>
      match digit_val c with
      | Some d => read_digits s' (acc * 10 + d)%Z (S cnt)
      | None => (acc, cnt, s)
      end
  | EmptyString => (acc, cnt, s)
  end.

Definition read_sign (s : string) : Z * string :=
  match s with
  | String "-"%char s' => ((-1)%Z, s')
  | String "+"%char s' => (1%Z, s')
  | _ => (1%Z, s)
  end.

(** A decimal literal as [(mantissa, exponent10)]. *)
Definition parse_decimal (s : string) : option (Z * Z) :=
  let '(sg, s1) := read_sign s in
  let '(ip, ni, s2) := read_digits s1 0%Z 0%nat in
  let '(m, nf, s3) :=
    match s2 with
    | String "."%char s2' => read_digits s2' ip 0%nat
    | _ => (ip, 0%nat, s2)
    end in
  if Nat.eqb (ni + nf) 0 then None else
  let exp_part :=
    match s3 with
    | String c s3' =>
        if Ascii.eqb c "e"%char || Ascii.eqb c "E"%char then
          let '(es, s4) := read_sign s3' in
          let '(ev, ne, s5) := read_digits s4 0%Z 0%nat in
          if Nat.eqb ne 0 then None else Some ((es * ev)%Z, s5)
        else Some (0%Z, s3)
    | EmptyString => Some (0%Z, s3)
    end in
  match exp_part with
  | Some (e, EmptyString) => Some ((sg * m)%Z, (e - Z.of_nat nf)%Z)
  | _ => None
  end.

(** [float(s)]: [None] stands for the [ValueError] it raises. *)
Definition py_float (s : string) : option R :=
  match parse_decimal (strip s) with
  | Some (m, e) => Some (IZR m * powerRZ 10 e)
  | None => None
  end.

Close Scope string_scope.

(** ** Samples and [load_csv_data] *)

(** One row of the capture: [{'time': ..., 'ch1': ..., 'ch2': ...}]. *)
Record sample : Type := mk_sample {
  time : R;
  ch1 : R;
  ch2 : R
}.

Definition data_header : string := "TIME,CH1,CH2".

(** The loop [for i, line in enumerate(lines): if 'TIME,CH1,CH2' in line]. *)
Fixpoint find_header (lines : list string) (i : nat) : option nat :=
  match lines with
  | [] => None
  | l :: ls => if str_contains data_header l then Some i else find_header ls (S i)
  end.

(** The body of the data loop for one line: [None] when the line is blank,
    has fewer than three fields or a field [float] rejects. *)
Definition parse_row (raw : string) : option sample :=
  let line := strip raw in
  match line with
  | EmptyString => None
  | _ =>
      match split_on ","%char line with
      | p0 :: p1 :: p2 :: _ =>
          match py_float p0, py_float p1, py_float p2 with
          | Some t, Some c1, Some c2 => Some (mk_sample (t * 1000) c1 c2)
          | _, _, _ => None
          end
      | _ => None
      end
  end.

Fixpoint parse_rows (lines : list string) : list sample :=
  match lines with
  | [] => []
  | l :: ls =>
      match parse_row l with
      | Some s => s :: parse_rows ls
      | None => parse_rows ls
      end
  end.

(** [load_csv_data], on the lines [file.readlines()] returns. *)
Definition load_csv_data (lines : list string) : result (list sample) :=
  match find_header lines 0 with
  | None => Err (ValueError "Could not find data header in CSV file")
  | Some data_start => Ok (parse_rows (skipn (S data_start) lines))
  end.

(** ** Python builtins on float lists *)

(** [max(l)]: keeps the running maximum, replaced when an item is [>] it;
    [None] stands for the [ValueError] of an empty list. *)
Definition py_max (l : list R) : option R :=
  match l with
  | [] => None
  | x :: xs => Some (fold_left (fun m y => if Rltb m y then y else m) xs x)
  end.

(** [min(l)], replaced when an item is [<] the running minimum. *)
Definition py_min (l : list R) : option R :=
  match l with
  | [] => None
  | x :: xs => Some (fold_left (fun m y => if Rltb y m then y else m) xs x)
  end.

(** [l.index(x)]: the first position holding a value [== x]. *)
Fixpoint py_index (x : R) (l : list R) : result nat :=
  match l with
  | [] => Err (ValueError "x not in list")
  | y :: ys => if Reqb y x then Ok 0%nat else bind (py_index x ys) (fun i => Ok (S i))
  end.

(** [np.mean], [np.sqrt(np.mean([v**2 ...]))] and [np.std] (population). *)
Definition np_mean (l : list R) : R := fold_right Rplus 0 l / INR (List.length l).

(** The rounding threshold of doubles, [2^1024 - 2^970]: the midpoint
    between the largest double and [2^1024], a tie rounding to the even
    neighbour [2^1024].  A result of this size or more is rounded to [inf];
    a literal of this size or more is read by [float()] as [inf]. *)
Definition float_overflow : R := IZR (2 ^ 1024 - 2 ^ 970)%Z.

(** [v ** 2] on a Python float.  For a finite float CPython raises
    [OverflowError] when the rounded square is infinite; [inf ** 2] is [inf]
    and does not raise, nor does a square that underflows to [0.0] or to a
    subnormal. *)
Definition square_overflows (v : R) : bool :=
  Rltb (Rabs v) float_overflow && Rleb float_overflow (v ^ 2).

Definition py_square (v : R) : result R :=
  if square_overflows v then Err OverflowError else Ok (v ^ 2).

(** [[v**2 for v in l]]: the first overflowing item raises. *)
Fixpoint py_squares (l : list R) : result (list R) :=
  match l with
  | [] => Ok []
  | v :: vs => s <- py_square v ;; ss <- py_squares vs ;; Ok (s :: ss)
  end.

Definition rms (l : list R) : result R :=
  sq <- py_squares l ;; Ok (sqrt (np_mean sq)).

Definition np_std (l : list R) : R :=
  let mu := np_mean l in sqrt (np_mean (map (fun v => (v - mu) ^ 2) l)).

(** Python's [l[a:b]] for [0 <= a], [0 <= b]. *)
Definition slice {A} (l : list A) (a b : nat) : list A := firstn (b - a) (skipn a l).

Definition py_max_r (l : list R) : result R :=
  match py_max l with
  | Some m => Ok m
  | None => Err (ValueError "max() arg is an empty sequence")
  end.

Definition py_min_r (l : list R) : result R :=
  match py_min l with
  | Some m => Ok m
  | None => Err (ValueError "min() arg is an empty sequence")
  end.

(** [l[0]] and [l[-1]]. *)
Definition py_first {A} (l : list A) : result A :=
  match l with
  | x :: _ => Ok x
  | [] => Err IndexError
  end.

Definition py_last {A} (l : list A) : result A :=
  match l with
  | x :: xs => Ok (last (x :: xs) x)
  | [] => Err IndexError
  end.

(** ** [calculate_ringdown] *)

Record ringdown : Type := mk_ringdown {
  ringdown_voltage : R;
  decay_constant : R
}.

Definition ringdown_zero : ringdown := mk_ringdown 0 0.

Definition calculate_ringdown (values : list R) : result ringdown :=
  if (List.length values <? 50)%nat then Ok ringdown_zero else
  let abs_values := map Rabs values in
  mx <- py_max_r abs_values ;;
  max_idx <- py_index mx abs_values ;;
  if (List.length values - 20 <=? max_idx)%nat then Ok ringdown_zero else
  let decay_segment :=
    slice values max_idx (Nat.min (max_idx + 100) (List.length values)) in
  a0 <- py_first decay_segment ;;
  a1 <- py_last decay_segment ;;
  let initial_amp := Rabs a0 in
  let final_amp := Rabs a1 in
  let ringdown_v := (initial_amp - final_amp) * 1000 in
  Ok (mk_ringdown ringdown_v
        (if Rltb final_amp initial_amp && Rltb 0 final_amp
         then ln (initial_amp / final_amp) / INR (List.length decay_segment)
         else 0)).

(** ** The trigger loop of [calculate_analysis] *)

(** [{'time': ..., 'index': i, 'current': ...}] *)
Record trigger_point : Type := mk_trigger_point {
  tp_time : R;
  tp_index : nat;
  tp_current : R
}.

(** The loop variables [in_trigger] and [trigger_points]. *)
Record trig_state : Type := mk_trig_state {
  in_trigger : bool;
  trigger_points : list trigger_point
}.

Definition trig_init : trig_state := mk_trig_state false [].

Definition sample0 : sample := mk_sample 0 0 0.

(** [data[i]]; the loop only reads indices below [len(data)]. *)
Definition at_ (data : list sample) (i : nat) : sample := nth i data sample0.

(** One iteration of [for i in range(1, len(data))]. *)
Definition trig_step (data : list sample) (thr : R) (st : trig_state) (i : nat)
  : trig_state :=
  let prev_current := Rabs (ch2 (at_ data (i - 1))) in
  let current_current := Rabs (ch2 (at_ data i)) in
  if negb (in_trigger st) && Rltb thr current_current && Rleb prev_current thr then
    mk_trig_state true
      (trigger_points st ++
         [mk_trigger_point (time (at_ data i)) i (ch2 (at_ data i))])
  else if in_trigger st && Rleb current_current thr then
    mk_trig_state false (trigger_points st)
  else st.

(** The state after the iterations [i = 1 .. n]. *)
Definition trig_run (data : list sample) (thr : R) (n : nat) : trig_state :=
  fold_left (trig_step data thr) (seq 1 n) trig_init.

Definition trigger_scan (data : list sample) (thr : R) : trig_state :=
  trig_run data thr (List.length data - 1).

(** ** [calculate_analysis] *)

Record ch1_stats : Type := mk_ch1_stats {
  ch1_min : R;
  ch1_max : R;
  ch1_peak_to_peak : R;
  ch1_rms : R;
  ch1_noise : R;
  ch1_ringdown : ringdown
}.

Record ch2_stats : Type := mk_ch2_stats {
  ch2_min : R;
  ch2_max : R;
  ch2_peak_to_peak : R;
  ch2_rms : R
}.

Record trigger_info : Type := mk_trigger_info {
  threshold : R;
  points : list trigger_point;
  count : nat
}.

Record metadata : Type := mk_metadata {
  data_points : nat;
  sample_rate : R;
  duration : R;
  time_start : R;
  time_end : R
}.

Record analysis : Type := mk_analysis {
  raw_data : list sample;
  a_ch1 : ch1_stats;
  a_ch2 : ch2_stats;
  a_trigger : trigger_info;
  a_metadata : metadata
}.

(** The returned dict: [None] is the empty dict [{}]. [ch1_mean] is computed
    by the source but never stored, and is left out.  The one operation of the
    body that raises on a non-empty capture is [v**2] in the two RMS
    comprehensions: [min], [max], the float subtractions and products and the
    numpy calls give [inf] or [nan] without raising.  The division
    [len(times) / (duration / 1000)] does not raise either on the samples of
    [load_csv_data]: their times are floats multiplied by 1000, so two
    distinct times differ by at least 512 times the smallest subnormal and
    [duration / 1000] is not rounded to [0.0]. *)
Definition calculate_analysis (data : list sample) (trigger_threshold : R)
  : result (option analysis) :=
  match data with
  | [] => Ok None
  | _ =>
    let times := map time data in
    let ch1_values := map ch1 data in
    let ch2_values := map ch2 data in
    c1min <- py_min_r ch1_values ;;
    c1max <- py_max_r ch1_values ;;
    let ch1_peak_to_peak := (c1max - c1min) * 1000 in
    c2min <- py_min_r ch2_values ;;
    c2max <- py_max_r ch2_values ;;
    let ch2_peak_to_peak := c2max - c2min in
    ch1_rms <- rms ch1_values ;;
    ch2_rms <- rms ch2_values ;;
    let ch1_noise := np_std ch1_values * 1000 in
    let trig := trigger_scan data trigger_threshold in
    rd <- calculate_ringdown ch1_values ;;
    tmax <- py_max_r times ;;
    tmin <- py_min_r times ;;
    let sample_rate :=
      if (1 <? List.length times)%nat then
        let duration := tmax - tmin in
        if Rltb 0 duration then INR (List.length times) / (duration / 1000) else 0
      else 0 in
    Ok (Some (mk_analysis data
      (mk_ch1_stats c1min c1max ch1_peak_to_peak ch1_rms ch1_noise rd)
      (mk_ch2_stats c2min c2max ch2_peak_to_peak ch2_rms)
      (mk_trigger_info trigger_threshold (trigger_points trig)
         (List.length (trigger_points trig)))
      (mk_metadata (List.length data) sample_rate (tmax - tmin) tmin tmax)))
  end.

(** No channel value of the capture makes [v**2] raise. *)
Definition squares_fit (data : list sample) : bool :=
  forallb (fun s => negb (square_overflows (ch1 s)) && negb (square_overflows (ch2 s)))
    data.

(** ** [AnalysisWorker.run]: the dict passed to [finished.emit]; an exception
    of either step is caught and [{}] is emitted. *)
Definition worker_run (lines : list string) (trigger_current : R) : option analysis :=
  match (data <- load_csv_data lines ;; calculate_analysis data trigger_current) with
  | Ok a => a
  | Err _ => None
  end.

(** ** [evaluate_pass_fail] *)

(** The values of the limit spin boxes and of [trigger_current_spin]. *)
Record criteria : Type := mk_criteria {
  peak_lsl : R;
  peak_usl : R;
  trigger_lsl : R;
  trigger_usl : R;
  noise_lsl : R;
  noise_usl : R;
  ringdown_lsl : R;
  ringdown_usl : R;
  trigger_current_value : R
}.

Inductive overall_status : Type := Pass | Fail | Unknown.

Record verdict : Type := mk_verdict {
  overall : overall_status;
  details : list (string * bool)
}.

(** Python's chained [lsl <= x <= usl]. *)
Definition in_limits (lsl x usl : R) : bool := Rleb lsl x && Rleb x usl.

(** [has_ringdown] is [test_type_configs[...].get('has_ringdown', False)]
    for the selected test type. *)
Definition evaluate_pass_fail (current_analysis : option analysis) (c : criteria)
  (has_ringdown : bool) : verdict :=
  match current_analysis with
  | None => mk_verdict Unknown []
  | Some a =>
    let ch1 := a_ch1 a in
    let results :=
      [("peak_to_peak", in_limits (peak_lsl c) (ch1_peak_to_peak ch1) (peak_usl c));
       ("trigger_current",
          in_limits (trigger_lsl c) (trigger_current_value c) (trigger_usl c));
       ("noise", in_limits (noise_lsl c) (ch1_noise ch1) (noise_usl c))]%string in
    let results :=
      if has_ringdown then
        results ++ [("ringdown"%string,
          in_limits (ringdown_lsl c) (ringdown_voltage (ch1_ringdown ch1)) (ringdown_usl c))]
      else results ++ [("ringdown"%string, true)] in
    mk_verdict (if forallb snd results then Pass else Fail) results
  end.

(** [details[k]]. *)
Fixpoint lookup (k : string) (l : list (string * bool)) : option bool :=
  match l with
  | [] => None
  | (k', b) :: l' => if String.eqb k k' then Some b else lookup k l'
  end.

(** ** Reference definitions and predicates used in the statements *)

(** Strictly increasing, over every pair of positions. *)
Definition increasing {A} (lt : A -> A -> Prop) (l : list A) : Prop :=
  forall i j x y, (i < j)%nat -> nth_error l i = Some x -> nth_error l j = Some y -> lt x y.

(** The position of the first sample of largest absolute value, in one
    pass: the best position moves only on a strictly larger magnitude. *)
Fixpoint argmax_abs_aux (l : list R) (i best : nat) (bv : R) : nat :=
  match l with
  | [] => best
  | y :: ys =>
      if Rlt_dec bv (Rabs y) then argmax_abs_aux ys (S i) i (Rabs y)
      else argmax_abs_aux ys (S i) best bv
  end.

Definition peak_index (vs : list R) : nat :=
  match vs with
  | [] => 0
  | x :: xs => argmax_abs_aux xs 1 0 (Rabs x)
  end.

(** The ringdown estimate as the specification words it: fewer than 50
    samples, or a peak among the last 20, give the zero sentinel; otherwise
    a window of [min 100 (n - peak)] samples starting at the peak. *)
Definition ringdown_ref (vs : list R) : ringdown :=
  let n := List.length vs in
  let m := peak_index vs in
  if (n <? 50)%nat then mk_ringdown 0 0
  else if (n - 20 <=? m)%nat then mk_ringdown 0 0
  else
    let window_length := Nat.min 100 (n - m) in
    let initial_amplitude := Rabs (nth m vs 0) in
    let final_amplitude := Rabs (nth (m + window_length - 1) vs 0) in
    mk_ringdown ((initial_amplitude - final_amplitude) * 1000)
      (if Rlt_dec 0 final_amplitude then
         if Rlt_dec final_amplitude initial_amplitude then
           ln (initial_amplitude / final_amplitude) / INR window_length
         else 0
       else 0).

(** [M] is the largest, resp. smallest, value of [l]. *)
Definition is_max (l : list R) (M : R) : Prop := In M l /\ forall y, In y l -> y <= M.
Definition is_min (l : list R) (m : R) : Prop := In m l /\ forall y, In y l -> m <= y.

(** ** [MatplotlibWidget.plot_data]

    What the method draws: the three sliced series, the two dashed trigger
    lines at [+trigger_current] and [-trigger_current], and the x positions of
    the orange trigger markers.  [None] is the early return that only redraws
    the empty canvas.  The zoom values come from integer spin boxes, and
    [int(len(data) * z / 100)] is the exact quotient rounded down. *)
Record plot : Type := mk_plot {
  plot_times : list R;
  plot_ch1 : list R;
  plot_ch2 : list R;
  trigger_lines : list R;
  marker_times : list R
}.

Definition plot_data (analysis_data : option analysis) (trigger_current : R)
  (zoom_start zoom_end : nat) : option plot :=
  match analysis_data with
  | None => None
  | Some a =>
    let data := raw_data a in
    match data with
    | [] => None
    | _ =>
      let times := map time data in
      let ch1_values := map ch1 data in
      let ch2_values := map ch2 data in
      let start_idx := (List.length data * zoom_start / 100)%nat in
      let end_idx := (List.length data * zoom_end / 100)%nat in
      Some (mk_plot (slice times start_idx end_idx) (slice ch1_values start_idx end_idx)
              (slice ch2_values start_idx end_idx)
              [trigger_current; - trigger_current]
              (map tp_time
                 (filter (fun p => (start_idx <=? tp_index p) && (tp_index p <? end_idx))%nat
                    (points (a_trigger a)))))
    end
  end.

(** ** Table names *)

(** [str.lower()] and [str.upper()] on ASCII text. *)
Definition lower_char (c : ascii) : ascii :=
  let n := nat_of_ascii c in
  if ((65 <=? n) && (n <=? 90))%nat then ascii_of_nat (n + 32) else c.

Definition upper_char (c : ascii) : ascii :=
  let n := nat_of_ascii c in
  if ((97 <=? n) && (n <=? 122))%nat then ascii_of_nat (n - 32) else c.

Fixpoint map_string (f : ascii -> ascii) (s : string) : string :=
  match s with
  | EmptyString => EmptyString
  | String c s' => String (f c) (map_string f s')
  end.

Definition py_lower (s : string) : string := map_string lower_char s.
Definition py_upper (s : string) : string := map_string upper_char s.

(** [s.replace(old, new)] for a non-empty [old]: left to right, an occurrence
    is replaced and skipped, otherwise one character is kept.  The fuel is
    the length of [s] plus one, which each step decreases. *)
Fixpoint replace_fuel (fuel : nat) (old new s : string) : string :=
  match fuel with
  | O => s
  | S f =>
    match s with
    | EmptyString => EmptyString
    | String c s' =>
        if starts_with old s
        then (new ++ replace_fuel f old new (substring (String.length old)
                                                (String.length s) s))%string
        else String c (replace_fuel f old new s')
    end
  end.

Definition py_replace (old new s : string) : string :=
  replace_fuel (S (String.length s)) old new s.

(** [f"{test_type.lower().replace(' ', '_')}_analysis"] in
    [DatabaseManager.save_analysis] and [get_results]. *)
Definition table_name (test_type : string) : string :=
  (py_replace " " "_" (py_lower test_type) ++ "_analysis")%string.

(** [table.replace('_analysis', '').upper().replace('_', ' ')] in
    [get_all_results]. *)
Definition table_test_type (table : string) : string :=
  py_replace "_" " " (py_upper (py_replace "_analysis" "" table)).

(** [test_type_configs]: [has_ringdown] and [has_skid_plate] are the values
    of [.get(..., False)]. *)
Record config : Type := mk_config {
  cfg_name : string;
  dut_label : string;
  reference_label : string;
  cfg_has_ringdown : bool;
  cfg_has_skid_plate : bool
}.

Definition test_type_configs : list (string * config) :=
  [("DTT", mk_config "DTT" "DTT (SV/33053/0020) [DUT]"
             "DTR (SV/33053/0031) [Reference]" false false);
   ("DTR", mk_config "DTR" "DTR (SV/33053/0031) [DUT]"
             "DTT (SV/33053/0020) [Reference]" false false);
   ("DC02", mk_config "DC02" "DC02 Innerblock (SV/103003/0016) [DUT]"
              "DCbox (SV/102603/0033) [Reference]" true false);
   ("DC03 Skid", mk_config "DC03 Skid" "DC03 Skid (SV/102503/0026) [DUT]"
                   "DC03 Innerblock (SV/33053/0029) [Reference]" false false);
   ("IDOD", mk_config "IDOD" "IDOD skid [DUT]"
              "IDOD Innerblock (SV/33053/0028) [Reference]" false true)]%string.

(** [test_type_configs[key]]: [None] is the [KeyError]. *)
Fixpoint assoc_str {A} (k : string) (l : list (string * A)) : option A :=
  match l with
  | [] => None
  | (k', v) :: l' => if String.eqb k k' then Some v else assoc_str k l'
  end.

Definition config_lookup (key : string) : option config :=
  assoc_str key test_type_configs.

(** The keys of [test_type_configs], in order: the items of the test type
    combo boxes. *)
Definition config_keys : list string := map fst test_type_configs.

(** [tables] in [get_all_results]. *)
Definition all_tables : list string :=
  ["dtt_analysis"; "dtr_analysis"; "dc02_analysis"; "dc03_skid_analysis";
   "idod_analysis"]%string.

(** The [test_type] filter of [get_all_results]: [false] is the [continue]
    that skips the table. *)
Definition keeps_table (filter_test_type : option string) (table : string) : bool :=
  match filter_test_type with
  | Some ft =>
      if negb (String.eqb ft "") && negb (String.eqb ft "All")
      then String.eqb (table_test_type table) (py_upper ft)
      else true
  | None => true
  end.

Open Scope string_scope.

(** ** [generate_database_schema] *)

(** The SQL text the method returns. *)
Definition schema_sql : string := "-- Oscilloscope Analysis Database Schema
-- Run this in PostgreSQL to create the required tables

-- DTT Analysis Table
CREATE TABLE IF NOT EXISTS dtt_analysis (
    id SERIAL PRIMARY KEY,
    file_name VARCHAR(255) NOT NULL,
    test_number VARCHAR(50) NOT NULL,
    test_bench VARCHAR(100) NOT NULL,
    tester_id VARCHAR(50) NOT NULL,
    test_date DATE NOT NULL,
    analysis_date TIMESTAMP DEFAULT CURRENT_TIMESTAMP,
    dut_device VARCHAR(255),
    reference_device VARCHAR(255),
    test_function VARCHAR(100),
    peak_to_peak_mv DECIMAL(10,3),
    trigger_current_a DECIMAL(10,3),
    noise_mv DECIMAL(10,3),
    frequency_khz DECIMAL(10,3),
    data_points INTEGER,
    sample_rate_khz DECIMAL(10,3),
    peak_to_peak_lsl DECIMAL(10,3),
    peak_to_peak_usl DECIMAL(10,3),
    trigger_current_lsl DECIMAL(10,3),
    trigger_current_usl DECIMAL(10,3),
    noise_lsl DECIMAL(10,3),
    noise_usl DECIMAL(10,3),
    trigger_events INTEGER,
    pass_fail VARCHAR(10)
);

-- DC02 Analysis Table (includes ringdown)
CREATE TABLE IF NOT EXISTS dc02_analysis (
    id SERIAL PRIMARY KEY,
    file_name VARCHAR(255) NOT NULL,
    test_number VARCHAR(50) NOT NULL,
    test_bench VARCHAR(100) NOT NULL,
    tester_id VARCHAR(50) NOT NULL,
    test_date DATE NOT NULL,
    analysis_date TIMESTAMP DEFAULT CURRENT_TIMESTAMP,
    dut_device VARCHAR(255),
    reference_device VARCHAR(255),
    test_function VARCHAR(100),
    peak_to_peak_mv DECIMAL(10,3),
    trigger_current_a DECIMAL(10,3),
    noise_mv DECIMAL(10,3),
    ringdown_voltage_mv DECIMAL(10,3),
    frequency_khz DECIMAL(10,3),
    data_points INTEGER,
    sample_rate_khz DECIMAL(10,3),
    peak_to_peak_lsl DECIMAL(10,3),
    peak_to_peak_usl DECIMAL(10,3),
    trigger_current_lsl DECIMAL(10,3),
    trigger_current_usl DECIMAL(10,3),
    noise_lsl DECIMAL(10,3),
    noise_usl DECIMAL(10,3),
    ringdown_lsl DECIMAL(10,3),
    ringdown_usl DECIMAL(10,3),
    trigger_events INTEGER,
    pass_fail VARCHAR(10)
);

-- DTR Analysis Table
CREATE TABLE IF NOT EXISTS dtr_analysis (
    id SERIAL PRIMARY KEY,
    file_name VARCHAR(255) NOT NULL,
    test_number VARCHAR(50) NOT NULL,
    test_bench VARCHAR(100) NOT NULL,
    tester_id VARCHAR(50) NOT NULL,
    test_date DATE NOT NULL,
    analysis_date TIMESTAMP DEFAULT CURRENT_TIMESTAMP,
    dut_device VARCHAR(255),
    reference_device VARCHAR(255),
    test_function VARCHAR(100),
    peak_to_peak_mv DECIMAL(10,3),
    trigger_current_a DECIMAL(10,3),
    noise_mv DECIMAL(10,3),
    frequency_khz DECIMAL(10,3),
    data_points INTEGER,
    sample_rate_khz DECIMAL(10,3),
    peak_to_peak_lsl DECIMAL(10,3),
    peak_to_peak_usl DECIMAL(10,3),
    trigger_current_lsl DECIMAL(10,3),
    trigger_current_usl DECIMAL(10,3),
    noise_lsl DECIMAL(10,3),
    noise_usl DECIMAL(10,3),
    trigger_events INTEGER,
    pass_fail VARCHAR(10)
);

-- DC03 Skid Analysis Table
CREATE TABLE IF NOT EXISTS dc03_skid_analysis (
    id SERIAL PRIMARY KEY,
    file_name VARCHAR(255) NOT NULL,
    test_number VARCHAR(50) NOT NULL,
    test_bench VARCHAR(100) NOT NULL,
    tester_id VARCHAR(50) NOT NULL,
    test_date DATE NOT NULL,
    analysis_date TIMESTAMP DEFAULT CURRENT_TIMESTAMP,
    dut_device VARCHAR(255),
    reference_device VARCHAR(255),
    test_function VARCHAR(100),
    peak_to_peak_mv DECIMAL(10,3),
    trigger_current_a DECIMAL(10,3),
    noise_mv DECIMAL(10,3),
    frequency_khz DECIMAL(10,3),
    data_points INTEGER,
    sample_rate_khz DECIMAL(10,3),
    peak_to_peak_lsl DECIMAL(10,3),
    peak_to_peak_usl DECIMAL(10,3),
    trigger_current_lsl DECIMAL(10,3),
    trigger_current_usl DECIMAL(10,3),
    noise_lsl DECIMAL(10,3),
    noise_usl DECIMAL(10,3),
    trigger_events INTEGER,
    pass_fail VARCHAR(10)
);

-- IDOD Analysis Table (includes skid plate diameter)
CREATE TABLE IF NOT EXISTS idod_analysis (
    id SERIAL PRIMARY KEY,
    file_name VARCHAR(255) NOT NULL,
    test_number VARCHAR(50) NOT NULL,
    test_bench VARCHAR(100) NOT NULL,
    tester_id VARCHAR(50) NOT NULL,
    test_date DATE NOT NULL,
    analysis_date TIMESTAMP DEFAULT CURRENT_TIMESTAMP,
    dut_device VARCHAR(255),
    reference_device VARCHAR(255),
    skid_plate_diameter VARCHAR(50),
    test_function VARCHAR(100),
    peak_to_peak_mv DECIMAL(10,3),
    trigger_current_a DECIMAL(10,3),
    noise_mv DECIMAL(10,3),
    frequency_khz DECIMAL(10,3),
    data_points INTEGER,
    sample_rate_khz DECIMAL(10,3),
    peak_to_peak_lsl DECIMAL(10,3),
    peak_to_peak_usl DECIMAL(10,3),
    trigger_current_lsl DECIMAL(10,3),
    trigger_current_usl DECIMAL(10,3),
    noise_lsl DECIMAL(10,3),
    noise_usl DECIMAL(10,3),
    trigger_events INTEGER,
    pass_fail VARCHAR(10)
);

-- Insert some sample data for testing
INSERT INTO dtt_analysis (
    file_name, test_number, test_bench, tester_id, test_date, test_function,
    dut_device, reference_device, peak_to_peak_mv, trigger_current_a, noise_mv,
    frequency_khz, data_points, sample_rate_khz, peak_to_peak_lsl, peak_to_peak_usl,
    trigger_current_lsl, trigger_current_usl, noise_lsl, noise_usl, trigger_events, pass_fail
) VALUES (
    'sample_test.csv', 'T001', 'Bench A', 'admin', CURRENT_DATE, 'Performance test',
    'DTT (SV/33053/0020) [DUT]', 'DTR (SV/33053/0031) [Reference]', 350.5, 55.2, 2.1,
    250.0, 2000, 250.0, 150, 400, 30, 80, 0, 5, 3, 'pass'
);".

Definition newline : ascii := ascii_of_nat 10.

(** A name as it starts a line of the schema: up to a blank, [(] or [,]. *)
Fixpoint take_word (s : string) : string :=
  match s with
  | EmptyString => EmptyString
  | String c s' =>
      if is_space c || Ascii.eqb c "(" || Ascii.eqb c ","
      then EmptyString else String c (take_word s')
  end.

Definition create_prefix : string := "CREATE TABLE IF NOT EXISTS ".

(** The tables created by the schema text, read the way the text is laid
    out: a [CREATE TABLE IF NOT EXISTS] line names the table, each following
    line up to [);] declares one column, whose name is its first word and
    which is required when the line says [NOT NULL]. *)
Fixpoint read_tables (lines : list string)
  (cur : option (string * list (string * bool))) : list (string * list (string * bool)) :=
  match lines with
  | [] => []
  | l :: ls =>
    match cur with
    | None =>
        if starts_with create_prefix l
        then read_tables ls (Some (take_word (substring (String.length create_prefix)
                                                 (String.length l) l), []))
        else read_tables ls None
    | Some (name, cols) =>
        if String.eqb (strip l) ");" then (name, cols) :: read_tables ls None
        else read_tables ls (Some (name, (cols ++ [(take_word (lstrip l),
                                                    str_contains "NOT NULL" l)])%list))
    end
  end.

Definition schema_tables : list (string * list (string * bool)) :=
  read_tables (split_on newline schema_sql) None.

(** The columns of a table of the schema, with their [NOT NULL] flag. *)
Definition schema_columns (table : string) : option (list (string * bool)) :=
  assoc_str table schema_tables.

(** ** [OscilloscopeAnalyzer.save_analysis] *)

(** The values put in the [data] dict: texts, floats, integers, the date of
    [datetime.now().date()] and the time stamp of [datetime.now()]. *)
Inductive db_value : Type :=
  | VText (s : string)
  | VReal (x : R)
  | VInt (n : nat)
  | VDate (d : Z)
  | VTimestamp (t : Z).

(** What the method reads from the window. [current_file_name] is
    [os.path.basename(self.current_file_path)]; the criteria are the limit
    spin boxes and [trigger_current_spin]. *)
Record gui : Type := mk_gui {
  current_analysis : option analysis;
  current_file_name : string;
  test_number_text : string;
  test_bench_text : string;
  tester_id_text : string;
  test_type_text : string;
  test_function_text : string;
  skid_plate_text : string;
  gui_criteria : criteria
}.

Definition overall_text (o : overall_status) : string :=
  match o with
  | Pass => "pass"
  | Fail => "fail"
  | Unknown => "unknown"
  end.

(** How the method ends: the two warnings, the [KeyError] of
    [test_type_configs[...]], or the call
    [self.db_manager.save_analysis(test_type, data)]. *)
Inductive save_outcome : Type :=
  | NoAnalysisWarning
  | MissingFieldsWarning (names : list string)
  | KeyErrorRaised
  | SaveRequest (test_type : string) (row : list (string * db_value)).

Definition required_fields (g : gui) : list (string * string) :=
  [(test_number_text g, "Test Number"); (test_bench_text g, "Test Bench");
   (tester_id_text g, "Tester ID")].

Definition missing_fields (g : gui) : list string :=
  map snd (filter (fun f => String.eqb (strip (fst f)) "") (required_fields g)).

Definition save_analysis_gui (g : gui) (today now : Z) : save_outcome :=
  match current_analysis g with
  | None => NoAnalysisWarning
  | Some a =>
    match missing_fields g with
    | _ :: _ => MissingFieldsWarning (missing_fields g)
    | [] =>
      match config_lookup (test_type_text g) with
      | None => KeyErrorRaised
      | Some cfg =>
        let c := gui_criteria g in
        let pass_fail_result := evaluate_pass_fail (Some a) c (cfg_has_ringdown cfg) in
        let ch1 := a_ch1 a in
        let md := a_metadata a in
        let data :=
          [("file_name", VText (current_file_name g));
           ("test_number", VText (test_number_text g));
           ("test_bench", VText (test_bench_text g));
           ("tester_id", VText (tester_id_text g));
           ("test_date", VDate today);
           ("analysis_date", VTimestamp now);
           ("dut_device", VText (dut_label cfg));
           ("reference_device", VText (reference_label cfg));
           ("test_function", VText (test_function_text g));
           ("peak_to_peak_mv", VReal (ch1_peak_to_peak ch1));
           ("trigger_current_a", VReal (trigger_current_value c));
           ("noise_mv", VReal (ch1_noise ch1));
           ("frequency_khz", VReal (sample_rate md / 1000));
           ("data_points", VInt (data_points md));
           ("sample_rate_khz", VReal (sample_rate md / 1000));
           ("peak_to_peak_lsl", VReal (peak_lsl c));
           ("peak_to_peak_usl", VReal (peak_usl c));
           ("trigger_current_lsl", VReal (trigger_lsl c));
           ("trigger_current_usl", VReal (trigger_usl c));
           ("noise_lsl", VReal (noise_lsl c));
           ("noise_usl", VReal (noise_usl c));
           ("trigger_events", VInt (count (a_trigger a)));
           ("pass_fail", VText (overall_text (overall pass_fail_result)))] in
        let data :=
          if cfg_has_ringdown cfg
          then (data ++ [("ringdown_voltage_mv", VReal (ringdown_voltage (ch1_ringdown ch1)));
                         ("ringdown_lsl", VReal (ringdown_lsl c));
                         ("ringdown_usl", VReal (ringdown_usl c))])%list
          else data in
        let data :=
          if cfg_has_skid_plate cfg
          then (data ++ [("skid_plate_diameter", VText (skid_plate_text g))])%list
          else data in
        SaveRequest (test_type_text g) data
      end
    end
  end.

(** ** [DatabaseManager.save_analysis]: the query and the values passed to
    [cursor.execute] *)

(** [sep.join(l)] *)
Definition py_join (sep : string) (l : list string) : string :=
  match l with
  | [] => EmptyString
  | x :: xs => fold_left (fun acc y => acc ++ sep ++ y) xs x
  end.

Definition nl : string := String newline EmptyString.

Definition insert_query (test_type : string) (columns : list string) (n_values : nat)
  : string :=
  nl ++ "            INSERT INTO " ++ table_name test_type ++ " ("
     ++ py_join ", " columns ++ ") " ++ nl
     ++ "            VALUES (" ++ py_join ", " (repeat "%s" n_values) ++ ")" ++ nl
     ++ "            ".

Definition db_insert (test_type : string) (row : list (string * db_value))
  : string * list db_value :=
  let columns := map fst row in
  let values := map snd row in
  (insert_query test_type columns (List.length values), values).

(** [s.count(p)] for a non-empty [p]: non-overlapping occurrences from the
    left. *)
Fixpoint count_fuel (fuel : nat) (p s : string) : nat :=
  match fuel with
  | O => O
  | S f =>
    match s with
    | EmptyString => O
    | String _ s' =>
        if starts_with p s
        then S (count_fuel f p (substring (String.length p) (String.length s) s))
        else count_fuel f p s'
    end
  end.

Definition py_count (p s : string) : nat := count_fuel (S (String.length s)) p s.

(** ** [DatabaseManager.get_all_results]: the query of one table *)

(** The filters dict of [get_analytics_filters]; [None] is a missing key. *)
Record filters : Type := mk_filters {
  f_test_type : option string;
  f_pass_fail : option string;
  f_tester_id : option string;
  f_test_bench : option string;
  f_date_from : option Z;
  f_date_to : option Z
}.

Inductive db_param : Type :=
  | PText (s : string)
  | PDate (d : Z).

Definition truthy_str (s : string) : bool := negb (String.eqb s "").

(** The condition and parameter one filter adds, in the order of the code. *)
Definition filter_items (f : filters) : list (string * db_param) :=
  let pf := match f_pass_fail f with
            | Some v => if truthy_str v && negb (String.eqb v "All")
                        then [("pass_fail = %s", PText (py_lower v))] else []
            | None => []
            end in
  let tid := match f_tester_id f with
             | Some v => if truthy_str v
                         then [("tester_id ILIKE %s", PText ("%" ++ v ++ "%"))] else []
             | None => []
             end in
  let tb := match f_test_bench f with
            | Some v => if truthy_str v
                        then [("test_bench ILIKE %s", PText ("%" ++ v ++ "%"))] else []
            | None => []
            end in
  let df := match f_date_from f with
            | Some d => [("test_date >= %s", PDate d)]
            | None => []
            end in
  let dt := match f_date_to f with
            | Some d => [("test_date <= %s", PDate d)]
            | None => []
            end in
  (pf ++ tid ++ tb ++ df ++ dt)%list.

(** The query and parameters passed to [cursor.execute] for [table], or
    [None] when the [test_type] filter skips the table ([continue]). *)
Definition select_query (table : string) (fl : option filters)
  : option (string * list db_param) :=
  let base := ("SELECT *, '" ++ table ++ "' as source_table FROM " ++ table)%string in
  let finish (items : list (string * db_param)) :=
    let where_conditions := map fst items in
    let query :=
      match where_conditions with
      | [] => base
      | _ => base ++ " WHERE " ++ py_join " AND " where_conditions
      end in
    Some (query ++ " ORDER BY analysis_date DESC", map snd items) in
  match fl with
  | None => finish []
  | Some f => if keeps_table (f_test_type f) table then finish (filter_items f) else None
  end.

(** ** [DatabaseManager.get_analytics_summary] *)

(** One dict of [get_all_results]: [SELECT *] returns every column, so
    [r.get(k, default)] finds the key and gives the value, [None] for SQL
    [NULL]; [test_type] is set by [get_all_results]. Dates are day numbers. *)
Record db_row : Type := mk_db_row {
  r_test_type : string;
  r_pass_fail : option string;
  r_tester_id : option string;
  r_test_bench : option string;
  r_test_date : option Z;
  r_peak_to_peak_mv : option R;
  r_trigger_current_a : option R;
  r_noise_mv : option R
}.

Record counts : Type := mk_counts {
  c_total : nat;
  c_pass : nat;
  c_fail : nat
}.

(** [r.get('pass_fail') == 'pass'] *)
Definition is_pass (r : db_row) : bool :=
  match r_pass_fail r with
  | Some s => String.eqb s "pass"
  | None => false
  end.

Definition opt_str_eqb (x y : option string) : bool :=
  match x, y with
  | Some a, Some b => String.eqb a b
  | None, None => true
  | _, _ => false
  end.

Definition bump (c : counts) (r : db_row) : counts :=
  if is_pass r then mk_counts (S (c_total c)) (S (c_pass c)) (c_fail c)
  else mk_counts (S (c_total c)) (c_pass c) (S (c_fail c)).

(** One pass of the grouping loops: the key gets
    [{'total': 0, 'pass': 0, 'fail': 0}] if it is new (at the end, as dicts
    keep insertion order), then its counts are incremented. *)
Fixpoint group_update (k : option string) (r : db_row)
  (acc : list (option string * counts)) : list (option string * counts) :=
  match acc with
  | [] => [(k, bump (mk_counts 0 0 0) r)]
  | (k', c) :: acc' =>
      if opt_str_eqb k k' then (k', bump c r) :: acc'
      else (k', c) :: group_update k r acc'
  end.

Definition group_by (key : db_row -> option string) (rows : list db_row)
  : list (option string * counts) :=
  fold_left (fun acc r => group_update (key r) r acc) rows [].

Record param_stats : Type := mk_param_stats {
  p_mean : R;
  p_std : R;
  p_min : R;
  p_max : R
}.

(** [[float(r.get(k, 0)) for r in results if r.get(k)]]: a [NULL] and a
    stored [0] are both left out. *)
Fixpoint param_values (get : db_row -> option R) (rows : list db_row) : list R :=
  match rows with
  | [] => []
  | r :: rs =>
      match get r with
      | Some v => if Reqb v 0 then param_values get rs else v :: param_values get rs
      | None => param_values get rs
      end
  end.

(** The [mean], [std], [min] and [max] of the values.  [p_mean] and [p_std]
    are the exact mean and population standard deviation over the reals,
    which [np.mean] and [np.std] only approximate; [min] and [max] return
    one of the values and are exact. *)
Definition param_summary (vs : list R) : param_stats :=
  match py_min vs, py_max vs with
  | Some lo, Some hi => mk_param_stats (np_mean vs) (np_std vs) lo hi
  | _, _ => mk_param_stats 0 0 0 0
  end.

Record summary : Type := mk_summary {
  total_tests : nat;
  pass_count : nat;
  fail_count : nat;
  pass_rate : R;
  recent_pass_rate : R;
  recent_tests : nat;
  test_types : list (option string * counts);
  testers : list (option string * counts);
  test_benches : list (option string * counts);
  peak_to_peak_stats : param_stats;
  trigger_current_stats : param_stats;
  noise_stats : param_stats
}.

(** The summary of the rows of [get_all_results(filters)]; [None] is [{}].
    [today] is [datetime.now().date()]. *)
Definition get_analytics_summary (results : list db_row) (today : Z) : option summary :=
  match results with
  | [] => None
  | _ =>
    let total := List.length results in
    let pc := List.length (filter is_pass results) in
    let fc := (total - pc)%nat in
    let rate := if (0 <? total)%nat then INR pc / INR total * 100 else 0 in
    let recent_date := (today - 30)%Z in
    let recent_results :=
      filter (fun r => match r_test_date r with
                       | Some d => Z.leb recent_date d
                       | None => false
                       end) results in
    let recent_rate :=
      match recent_results with
      | [] => 0
      | _ => INR (List.length (filter is_pass recent_results))
               / INR (List.length recent_results) * 100
      end in
    Some (mk_summary total pc fc rate recent_rate (List.length recent_results)
            (group_by (fun r => Some (r_test_type r)) results)
            (group_by r_tester_id results)
            (group_by r_test_bench results)
            (param_summary (param_values r_peak_to_peak_mv results))
            (param_summary (param_values r_trigger_current_a results))
            (param_summary (param_values r_noise_mv results)))
  end.

(** ** The breakdown table of [update_analytics] *)

(** One row: the columns ['Category'], ['Name'], ['Total Tests'], ['Pass']
    and ['Fail'].  The column ['Pass Rate (%)'], the string that
    [f"{pass_rate:.1f}"] formats, is not modelled. *)
Record breakdown_row : Type := mk_breakdown_row {
  b_category : string;
  b_name : option string;
  b_total : nat;
  b_pass : nat;
  b_fail : nat
}.

Definition breakdown_rows (category : string) (groups : list (option string * counts))
  : list breakdown_row :=
  map (fun kc => mk_breakdown_row category (fst kc) (c_total (snd kc)) (c_pass (snd kc))
                   (c_fail (snd kc))) groups.

Definition breakdown_data (s : summary) : list breakdown_row :=
  (breakdown_rows "Test Type" (test_types s) ++ breakdown_rows "Tester" (testers s)
   ++ breakdown_rows "Test Bench" (test_benches s))%list.

(** ** Sample inputs for the examples *)

(** A window with a DC02 capture analysed and every field filled in. *)
Definition example_gui : gui :=
  mk_gui (Some (mk_analysis [mk_sample 0 0 0; mk_sample 1 (1/10) 2]
                  (mk_ch1_stats 0 (1/10) 100 (1/10) 50 ringdown_zero)
                  (mk_ch2_stats 0 2 2 (sqrt 2))
                  (mk_trigger_info 1 [mk_trigger_point 1 1 2] 1)
                  (mk_metadata 2 2000 1 0 1)))
         "capture.csv" "T001" "Bench A" "admin" "DC02" "Performance test" "100mm"
         (mk_criteria 0 1000 0 100 0 100 0 1000 (1/2)).

(** Three stored results of two test types. *)
Definition example_rows : list db_row :=
  [mk_db_row "DTT" (Some "pass") (Some "admin") (Some "Bench A") (Some 100%Z)
     (Some 350) (Some 55) (Some 0);
   mk_db_row "DC02" (Some "fail") (Some "admin") None None
     (Some 0) (Some 60) (Some 2);
   mk_db_row "DTT" (Some "pass") None (Some "Bench B") (Some 40%Z)
     None (Some 50) (Some 3)].

Close Scope string_scope.

(** * Lemmas *)

Lemma Rltb_spec x y : Rltb x y = true <-> x < y.
Proof. unfold Rltb; destruct (Rlt_dec x y); split; intros; auto; discriminate. Qed.

Lemma Rleb_spec x y : Rleb x y = true <-> x <= y.
Proof. unfold Rleb; destruct (Rle_dec x y); split; intros; auto; discriminate. Qed.

Lemma Rltb_false x y : Rltb x y = false <-> y <= x.
Proof. unfold Rltb; destruct (Rlt_dec x y); split; intros; try discriminate; lra. Qed.

Lemma Rleb_false x y : Rleb x y = false <-> y < x.
Proof. unfold Rleb; destruct (Rle_dec x y); split; intros; try discriminate; lra. Qed.

Lemma in_limits_spec l x u : in_limits l x u = true <-> l <= x <= u.
Proof.
  unfold in_limits; rewrite andb_true_iff, Rleb_spec, Rleb_spec; tauto.
Qed.

(** Decides comparisons between concrete reals in a goal. *)
Ltac decide_R :=
  repeat match goal with
  | |- context [Rlt_dec ?a ?b] => destruct (Rlt_dec a b); try lra
  | |- context [Rle_dec ?a ?b] => destruct (Rle_dec a b); try lra
  | |- context [Rcase_abs ?a] => destruct (Rcase_abs a); try lra
  end.

Lemma find_header_none lines i :
  Forall (fun l => str_contains data_header l = false) lines ->
  find_header lines i = None.
Proof.
  intros H; revert i; induction H as [|l ls Hl _ IH]; intros i; simpl; auto.
  rewrite Hl; apply IH.
Qed.

Lemma calculate_analysis_nil thr : calculate_analysis [] thr = Ok None.
Proof. reflexivity. Qed.

(** ** [max], [min] and [index] *)

Lemma fold_max_spec (xs : list R) (x : R) :
  let M := fold_left (fun m y => if Rltb m y then y else m) xs x in
  (M = x \/ In M xs) /\ x <= M /\ forall y, In y xs -> y <= M.
Proof.
  revert x; induction xs as [|z zs IH]; intros x; simpl.
  - split; [left; reflexivity | split; [lra | tauto]].
  - destruct (Rltb x z) eqn:E.
    + apply Rltb_spec in E.
      destruct (IH z) as (Hin & Hz & Hall); split; [|split].
      * destruct Hin as [->|?]; auto.
      * lra.
      * intros y [<-|Hy]; auto.
    + apply Rltb_false in E.
      destruct (IH x) as (Hin & Hx & Hall); split; [|split].
      * destruct Hin as [->|?]; auto.
      * exact Hx.
      * intros y [<-|Hy]; auto; lra.
Qed.

Lemma fold_min_spec (xs : list R) (x : R) :
  let M := fold_left (fun m y => if Rltb y m then y else m) xs x in
  (M = x \/ In M xs) /\ M <= x /\ forall y, In y xs -> M <= y.
Proof.
  revert x; induction xs as [|z zs IH]; intros x; simpl.
  - split; [left; reflexivity | split; [lra | tauto]].
  - destruct (Rltb z x) eqn:E.
    + apply Rltb_spec in E.
      destruct (IH z) as (Hin & Hz & Hall); split; [|split].
      * destruct Hin as [->|?]; auto.
      * lra.
      * intros y [<-|Hy]; auto.
    + apply Rltb_false in E.
      destruct (IH x) as (Hin & Hx & Hall); split; [|split].
      * destruct Hin as [->|?]; auto.
      * exact Hx.
      * intros y [<-|Hy]; auto; lra.
Qed.

Lemma py_max_r_ok (l : list R) :
  l <> [] -> exists M, py_max_r l = Ok M /\ In M l /\ forall y, In y l -> y <= M.
Proof.
  destruct l as [|x xs]; [congruence|]; intros _.
  unfold py_max_r, py_max.
  destruct (fold_max_spec xs x) as (Hin & Hx & Hall).
  eexists; split; [reflexivity|]; split.
  - destruct Hin as [E|E]; [left; rewrite E; reflexivity | right; exact E].
  - intros y [<-|Hy]; auto.
Qed.

Lemma py_min_r_ok (l : list R) :
  l <> [] -> exists M, py_min_r l = Ok M /\ In M l /\ forall y, In y l -> M <= y.
Proof.
  destruct l as [|x xs]; [congruence|]; intros _.
  unfold py_min_r, py_min.
  destruct (fold_min_spec xs x) as (Hin & Hx & Hall).
  eexists; split; [reflexivity|]; split.
  - destruct Hin as [E|E]; [left; rewrite E; reflexivity | right; exact E].
  - intros y [<-|Hy]; auto.
Qed.

Lemma py_index_first (x : R) (l : list R) (i : nat) :
  nth_error l i = Some x ->
  (forall j y, (j < i)%nat -> nth_error l j = Some y -> y <> x) ->
  py_index x l = Ok i.
Proof.
  revert i; induction l as [|y ys IH]; intros i Hi Hbefore.
  - destruct i; discriminate.
  - simpl. destruct i as [|i].
    + simpl in Hi; injection Hi as ->.
      unfold Reqb; destruct (Req_dec_T x x); [reflexivity | congruence].
    + assert (Hy : y <> x) by (apply (Hbefore 0%nat); [lia | reflexivity]).
      unfold Reqb; destruct (Req_dec_T y x) as [E|_]; [contradiction|].
      rewrite (IH i Hi); [reflexivity|].
      intros j z Hj Hz; apply (Hbefore (S j)); [lia | exact Hz].
Qed.

(** ** The trigger loop *)

Lemma trig_run_S data thr n :
  trig_run data thr (S n) = trig_step data thr (trig_run data thr n) (S n).
Proof. unfold trig_run; rewrite seq_S, fold_left_app; reflexivity. Qed.

Lemma trig_step_cases data thr st i :
  let prev := Rabs (ch2 (at_ data (i - 1))) in
  let cur := Rabs (ch2 (at_ data i)) in
  (in_trigger st = false /\ thr < cur /\ prev <= thr /\
   trigger_points (trig_step data thr st i) =
     trigger_points st ++ [mk_trigger_point (time (at_ data i)) i (ch2 (at_ data i))])
  \/
  (~ (in_trigger st = false /\ thr < cur /\ prev <= thr) /\
   trigger_points (trig_step data thr st i) = trigger_points st).
Proof.
  intros prev cur; unfold trig_step; fold prev cur.
  destruct (in_trigger st) eqn:Eit; simpl.
  - right; split; [intros (H & _); discriminate|].
    destruct (Rleb cur thr); reflexivity.
  - destruct (Rltb thr cur) eqn:E1; destruct (Rleb prev thr) eqn:E2; simpl.
    + left; apply Rltb_spec in E1; apply Rleb_spec in E2; auto.
    + right; apply Rleb_false in E2; split; [intros (_ & _ & H); lra | reflexivity].
    + right; apply Rltb_false in E1; split; [intros (_ & H & _); lra | reflexivity].
    + right; apply Rltb_false in E1; split; [intros (_ & H & _); lra | reflexivity].
Qed.

Lemma trig_run_points data thr n ev :
  In ev (trigger_points (trig_run data thr n)) <->
  exists i, (1 <= i <= n)%nat /\
    in_trigger (trig_run data thr (i - 1)) = false /\
    Rabs (ch2 (at_ data (i - 1))) <= thr /\
    thr < Rabs (ch2 (at_ data i)) /\
    ev = mk_trigger_point (time (at_ data i)) i (ch2 (at_ data i)).
Proof.
  induction n as [|n IH].
  - simpl; split; [tauto|]. intros (i & Hi & _); lia.
  - rewrite trig_run_S.
    destruct (trig_step_cases data thr (trig_run data thr n) (S n))
      as [(H1 & H2 & H3 & E) | (Hn & E)]; rewrite E.
    + rewrite in_app_iff, IH; split.
      * intros [(i & Hi & Hrest) | [<- | []]].
        -- exists i; split; [lia | exact Hrest].
        -- exists (S n); split; [lia|]; split; [|auto].
           replace (S n - 1)%nat with n by lia; exact H1.
      * intros (i & Hi & Hrest).
        destruct (Nat.eq_dec i (S n)) as [->|Hne].
        -- right; left. destruct Hrest as (_ & _ & _ & ->); reflexivity.
        -- left; exists i; split; [lia | exact Hrest].
    + rewrite IH; split.
      * intros (i & Hi & Hrest); exists i; split; [lia | exact Hrest].
      * intros (i & Hi & Hrest).
        destruct (Nat.eq_dec i (S n)) as [->|Hne].
        -- exfalso; apply Hn. replace n with (S n - 1)%nat at 1 by lia.
           destruct Hrest as (A & B & C & _); auto.
        -- exists i; split; [lia | exact Hrest].
Qed.

Lemma increasing_nil {A} (lt : A -> A -> Prop) : increasing lt [].
Proof. intros i j x y _ Hx; destruct i; discriminate. Qed.

Lemma increasing_snoc {A} (lt : A -> A -> Prop) (l : list A) (x : A) :
  increasing lt l -> (forall y, In y l -> lt y x) -> increasing lt (l ++ [x]).
Proof.
  intros Hl Hx i j a b Hij Ha Hb.
  assert (Hj : (j < List.length (l ++ [x]))%nat)
    by (apply nth_error_Some; congruence).
  rewrite length_app in Hj; simpl in Hj.
  assert (Hi : (i < List.length l)%nat) by lia.
  rewrite nth_error_app1 in Ha by exact Hi.
  destruct (Nat.eq_dec j (List.length l)) as [->|Hne].
  - rewrite nth_error_app2, Nat.sub_diag in Hb by lia.
    simpl in Hb; injection Hb as <-.
    apply Hx, (nth_error_In _ _ Ha).
  - rewrite nth_error_app1 in Hb by lia.
    exact (Hl i j a b Hij Ha Hb).
Qed.

Lemma trig_run_increasing data thr n :
  increasing lt (map tp_index (trigger_points (trig_run data thr n))).
Proof.
  induction n as [|n IH]; [apply increasing_nil|].
  rewrite trig_run_S.
  destruct (trig_step_cases data thr (trig_run data thr n) (S n))
    as [(_ & _ & _ & E) | (_ & E)]; rewrite E; [|exact IH].
  rewrite map_app; simpl; apply increasing_snoc; [exact IH|].
  intros y Hy; apply in_map_iff in Hy as (ev & <- & Hev).
  apply trig_run_points in Hev as (i & Hi & _ & _ & _ & ->); simpl; lia.
Qed.

(** ** The peak of the absolute values *)

Lemma argmax_abs_aux_spec (l pre : list R) (best : nat) (bv : R) :
  (best < List.length pre)%nat ->
  Rabs (nth best pre 0) = bv ->
  (forall j, (j < List.length pre)%nat -> Rabs (nth j pre 0) <= bv) ->
  (forall j, (j < best)%nat -> Rabs (nth j pre 0) < bv) ->
  let r := argmax_abs_aux l (List.length pre) best bv in
  let vs := pre ++ l in
  (r < List.length vs)%nat /\
  (forall j, (j < List.length vs)%nat -> Rabs (nth j vs 0) <= Rabs (nth r vs 0)) /\
  (forall j, (j < r)%nat -> Rabs (nth j vs 0) < Rabs (nth r vs 0)).
Proof.
  revert pre best bv; induction l as [|y ys IH]; intros pre best bv Hb Hbv Hle Hlt r vs.
  - subst r vs; simpl; rewrite app_nil_r; repeat split; auto; subst bv; auto.
  - subst r vs; simpl.
    replace (pre ++ y :: ys) with ((pre ++ [y]) ++ ys) by (rewrite <- app_assoc; reflexivity).
    assert (Hlen : List.length (pre ++ [y]) = S (List.length pre))
      by (rewrite length_app; simpl; lia).
    assert (Hy : nth (List.length pre) (pre ++ [y]) 0 = y)
      by (rewrite app_nth2, Nat.sub_diag by lia; reflexivity).
    assert (Hpre : forall j, (j < List.length pre)%nat -> nth j (pre ++ [y]) 0 = nth j pre 0)
      by (intros; apply app_nth1; lia).
    destruct (Rlt_dec bv (Rabs y)) as [Hgt|Hngt].
    + rewrite <- Hlen. apply IH; rewrite ?Hlen.
      * lia.
      * rewrite Hy; reflexivity.
      * intros j Hj. destruct (Nat.eq_dec j (List.length pre)) as [->|Hne].
        -- rewrite Hy; lra.
        -- rewrite Hpre by lia. specialize (Hle j ltac:(lia)); lra.
      * intros j Hj. rewrite Hpre by lia. specialize (Hle j Hj); lra.
    + rewrite <- Hlen. apply IH; rewrite ?Hlen.
      * lia.
      * rewrite Hpre by lia; exact Hbv.
      * intros j Hj. destruct (Nat.eq_dec j (List.length pre)) as [->|Hne].
        -- rewrite Hy; lra.
        -- rewrite Hpre by lia. apply Hle; lia.
      * intros j Hj. rewrite Hpre by lia. apply Hlt; exact Hj.
Qed.

Lemma peak_index_spec (vs : list R) :
  vs <> [] ->
  let m := peak_index vs in
  (m < List.length vs)%nat /\
  (forall j, (j < List.length vs)%nat -> Rabs (nth j vs 0) <= Rabs (nth m vs 0)) /\
  (forall j, (j < m)%nat -> Rabs (nth j vs 0) < Rabs (nth m vs 0)).
Proof.
  destruct vs as [|x xs]; [congruence|]; intros _ m.
  apply (argmax_abs_aux_spec xs [x] 0 (Rabs x)); simpl.
  - lia.
  - reflexivity.
  - intros j Hj; replace j with 0%nat by lia; lra.
  - intros j Hj; lia.
Qed.

Lemma last_nth {A} (xs : list A) (x d : A) :
  last (x :: xs) d = nth (List.length xs) (x :: xs) d.
Proof.
  revert x; induction xs as [|y ys IH]; intros x; [reflexivity|].
  change (last (y :: ys) d = nth (List.length ys) (y :: ys) d); apply IH.
Qed.

(** [calculate_ringdown] never raises and computes [ringdown_ref]. *)
Lemma calculate_ringdown_spec (vs : list R) :
  calculate_ringdown vs = Ok (ringdown_ref vs).
Proof.
  unfold calculate_ringdown, ringdown_ref.
  set (n := List.length vs).
  destruct (n <? 50)%nat eqn:Hn; [reflexivity|].
  apply Nat.ltb_ge in Hn.
  assert (Hne : vs <> []) by (intros ->; subst n; simpl in Hn; lia).
  destruct (peak_index_spec vs Hne) as (Hm & Hmax & Hfirst).
  set (m := peak_index vs) in *.
  assert (Hne' : map Rabs vs <> []) by (destruct vs; simpl; congruence).
  destruct (py_max_r_ok (map Rabs vs) Hne') as (M & EM & HinM & HleM).
  assert (HM : M = Rabs (nth m vs 0)).
  { apply in_map_iff in HinM as (x & <- & Hx).
    apply In_nth with (d := 0) in Hx as (k & Hk & <-).
    apply Rle_antisym; [apply Hmax; exact Hk|].
    apply HleM, in_map, nth_In; exact Hm. }
  rewrite EM; cbn [bind].
  assert (Hidx : py_index M (map Rabs vs) = Ok m).
  { apply py_index_first.
    - rewrite nth_error_map, (nth_error_nth' vs 0 Hm); simpl; congruence.
    - intros j y Hj Hy.
      rewrite nth_error_map, (nth_error_nth' vs 0 (n := j) ltac:(lia)) in Hy.
      simpl in Hy; injection Hy as <-.
      specialize (Hfirst j Hj); rewrite HM; lra. }
  rewrite Hidx; cbn [bind].
  destruct (n - 20 <=? m)%nat eqn:Hm20; [reflexivity|].
  apply Nat.leb_gt in Hm20.
  set (wl := Nat.min 100 (n - m)).
  unfold slice.
  replace (Nat.min (m + 100) n - m)%nat with wl by (subst wl; lia).
  assert (Hseg_len : List.length (firstn wl (skipn m vs)) = wl).
  { rewrite length_firstn, length_skipn; fold n; subst wl; lia. }
  assert (Hseg_nth : forall k, (k < wl)%nat ->
            nth k (firstn wl (skipn m vs)) 0 = nth (m + k) vs 0).
  { intros k Hk; rewrite nth_firstn, nth_skipn.
    apply Nat.ltb_lt in Hk; rewrite Hk; reflexivity. }
  destruct (firstn wl (skipn m vs)) as [|x xs] eqn:Eseg.
  { simpl in Hseg_len; subst wl; lia. }
  cbn [py_first py_last bind].
  try rewrite Eseg in Hseg_nth, Hseg_len.
  rewrite last_nth, (nth_indep _ x 0) by (simpl; lia).
  simpl in Hseg_len.
  assert (Hx : x = nth m vs 0).
  { specialize (Hseg_nth 0%nat ltac:(lia)); rewrite Nat.add_0_r in Hseg_nth;
      exact Hseg_nth. }
  rewrite (Hseg_nth (List.length xs)) by lia.
  replace (m + List.length xs)%nat with (m + wl - 1)%nat by lia.
  rewrite <- Hx.
  change (List.length (x :: xs)) with (S (List.length xs)).
  replace (S (List.length xs)) with wl by lia.
  unfold Rltb.
  destruct (Rlt_dec (Rabs (nth (m + wl - 1) vs 0)) (Rabs x));
    destruct (Rlt_dec 0 (Rabs (nth (m + wl - 1) vs 0))); reflexivity.
Qed.

(** ** [calculate_analysis]: when it raises and what it returns *)

Lemma py_min_r_is_min (l : list R) (m : R) : py_min_r l = Ok m -> is_min l m.
Proof.
  intros H. destruct l as [|x xs]; [discriminate|].
  destruct (py_min_r_ok (x :: xs) ltac:(discriminate)) as (M & E & HM).
  rewrite E in H; injection H as <-; exact HM.
Qed.

Lemma py_max_r_is_max (l : list R) (m : R) : py_max_r l = Ok m -> is_max l m.
Proof.
  intros H. destruct l as [|x xs]; [discriminate|].
  destruct (py_max_r_ok (x :: xs) ltac:(discriminate)) as (M & E & HM).
  rewrite E in H; injection H as <-; exact HM.
Qed.

Lemma py_min_r_err (l : list R) (e : exn) : py_min_r l = Err e -> l = [].
Proof. destruct l; [reflexivity | discriminate]. Qed.

Lemma py_max_r_err (l : list R) (e : exn) : py_max_r l = Err e -> l = [].
Proof. destruct l; [reflexivity | discriminate]. Qed.

Lemma py_squares_ok (l : list R) :
  forallb (fun v => negb (square_overflows v)) l = true ->
  py_squares l = Ok (map (fun v => v ^ 2) l).
Proof.
  induction l as [|v vs IH]; intros H; [reflexivity|].
  cbn [forallb] in H; apply andb_prop in H as (Hv & Hvs).
  cbn [py_squares]; unfold py_square.
  destruct (square_overflows v); [discriminate|]; cbn [bind].
  rewrite (IH Hvs); reflexivity.
Qed.

Lemma py_squares_inv (l sq : list R) :
  py_squares l = Ok sq ->
  sq = map (fun v => v ^ 2) l /\ forallb (fun v => negb (square_overflows v)) l = true.
Proof.
  revert sq; induction l as [|v vs IH]; intros sq H.
  - injection H as <-; split; reflexivity.
  - cbn [py_squares] in H; unfold py_square in H.
    destruct (square_overflows v) eqn:Ev; cbn [bind] in H; [discriminate|].
    destruct (py_squares vs) as [ss|e] eqn:E; cbn [bind] in H; [|discriminate].
    injection H as <-. destruct (IH ss eq_refl) as (-> & Hf).
    split; [reflexivity | cbn [forallb]; rewrite Ev, Hf; reflexivity].
Qed.

Lemma py_squares_err (l : list R) (e : exn) :
  py_squares l = Err e ->
  e = OverflowError /\ forallb (fun v => negb (square_overflows v)) l = false.
Proof.
  induction l as [|v vs IH]; cbn [py_squares]; [discriminate|].
  unfold py_square; destruct (square_overflows v) eqn:Ev; cbn [bind].
  - intros [= <-]; split; [reflexivity | cbn [forallb]; rewrite Ev; reflexivity].
  - destruct (py_squares vs) eqn:E; cbn [bind]; [discriminate|].
    intros [= <-]; destruct (IH eq_refl) as (He & Hf); split; [exact He|].
    cbn [forallb]; rewrite Ev, Hf; reflexivity.
Qed.

Lemma rms_inv (l : list R) (r : R) :
  rms l = Ok r ->
  r = sqrt (np_mean (map (fun v => v ^ 2) l)) /\
  forallb (fun v => negb (square_overflows v)) l = true.
Proof.
  unfold rms; destruct (py_squares l) as [sq|e] eqn:E; cbn [bind]; [|discriminate].
  intros [= <-]; destruct (py_squares_inv l sq E) as (-> & Hf); split; auto.
Qed.

Lemma forallb_map_fit (f : sample -> R) (data : list sample) :
  forallb (fun v => negb (square_overflows v)) (map f data) =
  forallb (fun s => negb (square_overflows (f s))) data.
Proof. induction data as [|s ss IH]; cbn; [reflexivity | rewrite IH; reflexivity]. Qed.

Lemma squares_fit_split (data : list sample) :
  squares_fit data =
  forallb (fun v => negb (square_overflows v)) (map ch1 data) &&
  forallb (fun v => negb (square_overflows v)) (map ch2 data).
Proof.
  rewrite !forallb_map_fit; unfold squares_fit.
  induction data as [|s ss IH]; cbn [forallb]; [reflexivity|].
  rewrite IH.
  destruct (negb (square_overflows (ch1 s))), (negb (square_overflows (ch2 s)));
    cbn [andb]; [reflexivity | | reflexivity | reflexivity].
  destruct (forallb (fun s0 => negb (square_overflows (ch1 s0))) ss); reflexivity.
Qed.

(** The bind chain of [calculate_analysis], one step at a time. *)
Ltac bind_steps H :=
  repeat match type of H with
  | bind ?m _ = _ =>
      let E := fresh "E" in destruct m eqn:E; cbn [bind] in H
  end.

(** A result of [calculate_analysis], field by field. *)
Lemma calculate_analysis_some (data : list sample) (thr : R) (a : analysis) :
  calculate_analysis data thr = Ok (Some a) ->
  data <> [] /\ squares_fit data = true /\
  raw_data a = data /\
  is_min (map ch1 data) (ch1_min (a_ch1 a)) /\
  is_max (map ch1 data) (ch1_max (a_ch1 a)) /\
  ch1_peak_to_peak (a_ch1 a) = (ch1_max (a_ch1 a) - ch1_min (a_ch1 a)) * 1000 /\
  ch1_rms (a_ch1 a) = sqrt (np_mean (map (fun v => v ^ 2) (map ch1 data))) /\
  ch1_noise (a_ch1 a) = np_std (map ch1 data) * 1000 /\
  ch1_ringdown (a_ch1 a) = ringdown_ref (map ch1 data) /\
  is_min (map ch2 data) (ch2_min (a_ch2 a)) /\
  is_max (map ch2 data) (ch2_max (a_ch2 a)) /\
  ch2_peak_to_peak (a_ch2 a) = ch2_max (a_ch2 a) - ch2_min (a_ch2 a) /\
  ch2_rms (a_ch2 a) = sqrt (np_mean (map (fun v => v ^ 2) (map ch2 data))) /\
  threshold (a_trigger a) = thr /\
  points (a_trigger a) = trigger_points (trigger_scan data thr) /\
  count (a_trigger a) = List.length (points (a_trigger a)) /\
  data_points (a_metadata a) = List.length data /\
  is_min (map time data) (time_start (a_metadata a)) /\
  is_max (map time data) (time_end (a_metadata a)) /\
  duration (a_metadata a) = time_end (a_metadata a) - time_start (a_metadata a) /\
  sample_rate (a_metadata a) =
    (if (1 <? List.length data)%nat then
       if Rltb 0 (duration (a_metadata a))
       then INR (List.length data) / (duration (a_metadata a) / 1000) else 0
     else 0).
Proof.
  intros H. destruct data as [|d ds]; [discriminate|].
  unfold calculate_analysis in H; cbv beta iota zeta in H.
  bind_steps H; try discriminate H.
  injection H as <-.
  rewrite calculate_ringdown_spec in E5; injection E5 as <-.
  apply rms_inv in E3 as (-> & F1); apply rms_inv in E4 as (-> & F2).
  apply py_min_r_is_min in E; apply py_max_r_is_max in E0.
  apply py_min_r_is_min in E1; apply py_max_r_is_max in E2.
  apply py_max_r_is_max in E6; apply py_min_r_is_min in E7.
  cbn [raw_data a_ch1 a_ch2 a_trigger a_metadata ch1_min ch1_max ch1_peak_to_peak
    ch1_rms ch1_noise ch1_ringdown ch2_min ch2_max ch2_peak_to_peak ch2_rms
    threshold points count data_points time_start time_end duration sample_rate].
  rewrite squares_fit_split, F1, F2, length_map.
  repeat match goal with
  | |- _ /\ _ => split; [first [assumption | reflexivity | discriminate] |]
  end; reflexivity.
Qed.

Lemma calculate_analysis_fit (data : list sample) (thr : R) :
  data <> [] -> squares_fit data = true ->
  exists a, calculate_analysis data thr = Ok (Some a).
Proof.
  intros Hne Hfit.
  rewrite squares_fit_split in Hfit; apply andb_prop in Hfit as (F1 & F2).
  assert (Hmap : forall f : sample -> R, map f data <> [])
    by (intros f; destruct data; simpl; congruence).
  destruct (py_min_r_ok _ (Hmap ch1)) as (c1lo & E1 & _).
  destruct (py_max_r_ok _ (Hmap ch1)) as (c1hi & E2 & _).
  destruct (py_min_r_ok _ (Hmap ch2)) as (c2lo & E3 & _).
  destruct (py_max_r_ok _ (Hmap ch2)) as (c2hi & E4 & _).
  destruct (py_max_r_ok _ (Hmap time)) as (thi & E5 & _).
  destruct (py_min_r_ok _ (Hmap time)) as (tlo & E6 & _).
  destruct data as [|d ds]; [congruence|].
  unfold calculate_analysis; cbv beta iota zeta.
  unfold rms; rewrite (py_squares_ok _ F1), (py_squares_ok _ F2).
  rewrite E1; cbn [bind]; rewrite E2; cbn [bind]; rewrite E3; cbn [bind];
    rewrite E4; cbn [bind]; rewrite calculate_ringdown_spec; cbn [bind];
    rewrite E5; cbn [bind]; rewrite E6; cbn [bind].
  eexists; reflexivity.
Qed.

Lemma calculate_analysis_err (data : list sample) (thr : R) (e : exn) :
  calculate_analysis data thr = Err e ->
  data <> [] /\ e = OverflowError /\ squares_fit data = false.
Proof.
  intros H. destruct data as [|d ds]; [discriminate|].
  split; [discriminate|].
  assert (Hfit : squares_fit (d :: ds) = false).
  { destruct (squares_fit (d :: ds)) eqn:Hf; [|reflexivity].
    destruct (calculate_analysis_fit (d :: ds) thr ltac:(discriminate) Hf) as (a & Ea).
    rewrite Ea in H; discriminate. }
  split; [|exact Hfit].
  unfold calculate_analysis in H; cbv beta iota zeta in H.
  bind_steps H; try discriminate H; injection H as <-;
    first
      [ apply py_min_r_err in E; discriminate E
      | apply py_max_r_err in E0; discriminate E0
      | apply py_min_r_err in E1; discriminate E1
      | apply py_max_r_err in E2; discriminate E2
      | unfold rms in E3; destruct (py_squares (map ch1 (d :: ds))) eqn:S;
          cbn [bind] in E3; [discriminate | injection E3 as ->;
          exact (proj1 (py_squares_err _ _ S))]
      | unfold rms in E4; destruct (py_squares (map ch2 (d :: ds))) eqn:S;
          cbn [bind] in E4; [discriminate | injection E4 as ->;
          exact (proj1 (py_squares_err _ _ S))]
      | rewrite calculate_ringdown_spec in E5; discriminate E5
      | apply py_max_r_err in E6; discriminate E6
      | apply py_min_r_err in E7; discriminate E7 ].
Qed.

Lemma calculate_analysis_not_none (data : list sample) (thr : R) :
  data <> [] -> calculate_analysis data thr <> Ok None.
Proof.
  intros Hne H. destruct data as [|d ds]; [congruence|].
  unfold calculate_analysis in H; cbv beta iota zeta in H.
  bind_steps H; discriminate H.
Qed.

(** Values of at most 1000 in magnitude square without overflow. *)
Lemma small_square_fits (v : R) : -1000 <= v <= 1000 -> square_overflows v = false.
Proof.
  intros Hv. unfold square_overflows.
  assert (Hl : 1000000 < float_overflow)
    by (unfold float_overflow; apply IZR_lt; vm_compute; reflexivity).
  assert (Hsq : v ^ 2 < float_overflow) by nra.
  apply Rleb_false in Hsq; rewrite Hsq, andb_false_r; reflexivity.
Qed.

Ltac squares_fit_small :=
  unfold squares_fit; cbn [forallb ch1 ch2];
  repeat rewrite small_square_fits by lra; reflexivity.

(** ** A concrete capture with two pulses on channel 2 *)

Lemma two_pulses_points (t0 t1 t2 t3 : R) :
  trigger_points
    (trigger_scan [mk_sample t0 0 0; mk_sample t1 0 2; mk_sample t2 0 0;
                   mk_sample t3 0 2] 1)
  = [mk_trigger_point t1 1 2; mk_trigger_point t3 3 2].
Proof.
  assert (A0 : Rabs 0 = 0) by apply Rabs_R0.
  assert (A2 : Rabs 2 = 2) by (apply Rabs_pos_eq; lra).
  unfold trigger_scan, trig_run; cbn -[Rabs Rltb Rleb].
  unfold trig_step, at_; cbn -[Rabs Rltb Rleb].
  rewrite ?A0, ?A2.
  unfold Rltb, Rleb; decide_R; reflexivity.
Qed.

(** * Claims *)

(** ** C1 *)

(** C1 (counterexample): with the header line and no data rows, the worker
    emits the empty dict: there is no result carrying [data_points = 0] and
    [sample_rate = 0]. *)
Lemma C1_header_only_no_metadata :
  ~ exists a, worker_run [data_header] 1 = Some a /\
      data_points (a_metadata a) = 0%nat /\ sample_rate (a_metadata a) = 0.
Proof.
  intros (a & E & _). vm_compute in E. discriminate.
Qed.

(** C1 (amended): when the header is found but no valid data row follows,
    [load_csv_data] returns the empty list without raising, [calculate_analysis]
    returns the empty dict [{}] (no metrics, no metadata), and the worker
    emits [{}], the value it also emits when a step raises. *)
Theorem header_without_rows_empty_result (lines : list string) (thr : R) :
  load_csv_data lines = Ok [] ->
  calculate_analysis [] thr = Ok None /\ worker_run lines thr = None.
Proof.
  intros H; split; [apply calculate_analysis_nil|].
  unfold worker_run; rewrite H; reflexivity.
Qed.

Lemma header_without_rows_empty_result_witness :
  load_csv_data [data_header; "   "; "1,2"; "volts,x,y"]%string = Ok [] /\
  calculate_analysis [] 1 = Ok None /\
  worker_run [data_header; "   "; "1,2"; "volts,x,y"]%string 1 = None.
Proof.
  split; [vm_compute; reflexivity|].
  apply header_without_rows_empty_result; vm_compute; reflexivity.
Defined.

(** ** C2 *)

(** C2: for a (non-empty) analysis, each of [peak_to_peak], [trigger_current]
    and [noise] passes exactly when [lsl <= value <= usl]; [ringdown] is
    evaluated the same way when the test type requires it and is [true]
    otherwise; the verdict is [Pass] exactly when every entry is [true]. *)
Theorem evaluate_pass_fail_spec (a : analysis) (c : criteria) (has_ringdown : bool) :
  let v := evaluate_pass_fail (Some a) c has_ringdown in
  let ch1 := a_ch1 a in
  map fst (details v) = ["peak_to_peak"; "trigger_current"; "noise"; "ringdown"]%string /\
  (exists b, lookup "peak_to_peak" (details v) = Some b /\
     (b = true <-> peak_lsl c <= ch1_peak_to_peak ch1 <= peak_usl c)) /\
  (exists b, lookup "trigger_current" (details v) = Some b /\
     (b = true <-> trigger_lsl c <= trigger_current_value c <= trigger_usl c)) /\
  (exists b, lookup "noise" (details v) = Some b /\
     (b = true <-> noise_lsl c <= ch1_noise ch1 <= noise_usl c)) /\
  (has_ringdown = true ->
     exists b, lookup "ringdown" (details v) = Some b /\
       (b = true <->
        ringdown_lsl c <= ringdown_voltage (ch1_ringdown ch1) <= ringdown_usl c)) /\
  (has_ringdown = false -> lookup "ringdown" (details v) = Some true) /\
  (overall v = Pass <-> forall k b, In (k, b) (details v) -> b = true).
Proof.
  intros v ch1.
  assert (Hall : forall l : list (string * bool),
            forallb snd l = true <-> forall k b, In (k, b) l -> b = true).
  { intros l; rewrite forallb_forall; split.
    - intros H k b Hin; exact (H (k, b) Hin).
    - intros H [k b] Hin; exact (H k b Hin). }
  subst v; unfold evaluate_pass_fail.
  destruct has_ringdown; cbn [details overall].
  - split; [reflexivity|].
    split; [eexists; split; [reflexivity | apply in_limits_spec]|].
    split; [eexists; split; [reflexivity | apply in_limits_spec]|].
    split; [eexists; split; [reflexivity | apply in_limits_spec]|].
    split; [intros _; eexists; split; [reflexivity | apply in_limits_spec]|].
    split; [intros Hr; discriminate|].
    rewrite <- Hall; destruct (forallb snd _); split; intros; congruence.
  - split; [reflexivity|].
    split; [eexists; split; [reflexivity | apply in_limits_spec]|].
    split; [eexists; split; [reflexivity | apply in_limits_spec]|].
    split; [eexists; split; [reflexivity | apply in_limits_spec]|].
    split; [intros Hr; discriminate|].
    split; [intros _; reflexivity|].
    rewrite <- Hall; destruct (forallb snd _); split; intros; congruence.
Qed.

(** ** C3 *)

(** C3: [calculate_ringdown] never raises and returns exactly the reference
    estimate [ringdown_ref]: the zero sentinel for fewer than 50 samples or a
    peak among the last 20; otherwise, on the window of [min 100 (n - peak)]
    samples starting at the first sample of largest magnitude,
    [(|first| - |last|) * 1000] and [ln(|first| / |last|) / window_length]
    when [|first| > |last| > 0], else 0. *)
Theorem calculate_ringdown_reference (values : list R) :
  calculate_ringdown values = Ok (ringdown_ref values).
Proof. exact (calculate_ringdown_spec values). Qed.

(** ** C10 *)

(** C10: the ringdown voltage is never negative: 0 in the sentinel cases,
    and otherwise the window starts at the sample of largest magnitude. *)
Theorem ringdown_voltage_nonneg (values : list R) :
  exists r, calculate_ringdown values = Ok r /\ 0 <= ringdown_voltage r.
Proof.
  exists (ringdown_ref values); split; [apply calculate_ringdown_spec|].
  unfold ringdown_ref.
  destruct (List.length values <? 50)%nat eqn:Hn; [simpl; lra|].
  destruct (List.length values - 20 <=? peak_index values)%nat eqn:Hm; [simpl; lra|].
  apply Nat.ltb_ge in Hn; apply Nat.leb_gt in Hm.
  assert (Hne : values <> []) by (intros ->; simpl in Hn; lia).
  destruct (peak_index_spec values Hne) as (Hlt & Hmax & _).
  cbn [ringdown_voltage].
  set (m := peak_index values) in *.
  assert (Hle : Rabs (nth (m + Nat.min 100 (List.length values - m) - 1) values 0)
                <= Rabs (nth m values 0)) by (apply Hmax; lia).
  lra.
Qed.

(** ** C4 *)

(** C4: the trigger loop records a point exactly at the indices [i >= 1]
    where the loop is not [in_trigger] on reaching [i],
    [|ch2[i-1]| <= threshold] and [|ch2[i]| > threshold]; the point carries
    [time[i]], [i] and the signed [ch2[i]]; no point has index 0. *)
Theorem trigger_points_exact (data : list sample) (thr : R) :
  (forall ev, In ev (trigger_points (trigger_scan data thr)) <->
     exists i, (1 <= i < List.length data)%nat /\
       in_trigger (trig_run data thr (i - 1)) = false /\
       Rabs (ch2 (at_ data (i - 1))) <= thr /\
       thr < Rabs (ch2 (at_ data i)) /\
       ev = mk_trigger_point (time (at_ data i)) i (ch2 (at_ data i))) /\
  Forall (fun ev => tp_index ev <> 0%nat) (trigger_points (trigger_scan data thr)).
Proof.
  assert (Hc : forall ev, In ev (trigger_points (trigger_scan data thr)) <->
     exists i, (1 <= i < List.length data)%nat /\
       in_trigger (trig_run data thr (i - 1)) = false /\
       Rabs (ch2 (at_ data (i - 1))) <= thr /\
       thr < Rabs (ch2 (at_ data i)) /\
       ev = mk_trigger_point (time (at_ data i)) i (ch2 (at_ data i))).
  { intros ev; unfold trigger_scan; rewrite trig_run_points; split;
      intros (i & Hi & Hrest); exists i; split; auto; lia. }
  split; [exact Hc|].
  apply Forall_forall; intros ev Hev.
  apply Hc in Hev as (i & Hi & _ & _ & _ & ->); simpl; lia.
Qed.

(** ** C5 *)

(** C5: between two consecutive trigger points there is a sample, at or after
    the first one and before the second, whose [|ch2|] is at most the
    threshold. *)
Theorem trigger_hysteresis (data : list sample) (thr : R) (k : nat)
  (e1 e2 : trigger_point) :
  nth_error (trigger_points (trigger_scan data thr)) k = Some e1 ->
  nth_error (trigger_points (trigger_scan data thr)) (S k) = Some e2 ->
  (tp_index e1 < tp_index e2)%nat /\
  exists j, (tp_index e1 <= j < tp_index e2)%nat /\ Rabs (ch2 (at_ data j)) <= thr.
Proof.
  intros H1 H2.
  assert (Hlt : (tp_index e1 < tp_index e2)%nat).
  { apply (trig_run_increasing data thr (List.length data - 1) k (S k));
      [lia | apply map_nth_error; exact H1 | apply map_nth_error; exact H2]. }
  split; [exact Hlt|].
  apply nth_error_In in H2.
  unfold trigger_scan in H2; apply trig_run_points in H2
    as (i & Hi & _ & Hprev & _ & He2).
  subst e2; simpl in Hlt |- *.
  exists (i - 1)%nat; split; [lia | exact Hprev].
Qed.

Lemma trigger_hysteresis_witness :
  nth_error (trigger_points (trigger_scan
    [mk_sample 0 0 0; mk_sample 1 0 2; mk_sample 2 0 0; mk_sample 3 0 2] 1)) 0
    = Some (mk_trigger_point 1 1 2) /\
  nth_error (trigger_points (trigger_scan
    [mk_sample 0 0 0; mk_sample 1 0 2; mk_sample 2 0 0; mk_sample 3 0 2] 1)) 1
    = Some (mk_trigger_point 3 3 2) /\
  (1 < 3)%nat /\
  exists j, (1 <= j < 3)%nat /\
    Rabs (ch2 (at_ [mk_sample 0 0 0; mk_sample 1 0 2; mk_sample 2 0 0;
                    mk_sample 3 0 2] j)) <= 1.
Proof.
  assert (E := two_pulses_points 0 1 2 3).
  split; [rewrite E; reflexivity|].
  split; [rewrite E; reflexivity|].
  apply (trigger_hysteresis _ 1 0 (mk_trigger_point 1 1 2) (mk_trigger_point 3 3 2));
    rewrite E; reflexivity.
Defined.

(** ** C6 *)

(** C6: every result [calculate_analysis] returns has a channel-2
    peak-to-peak of [max(ch2) - min(ch2)] and a channel-1 peak-to-peak of
    [(max(ch1) - min(ch1)) * 1000], both [>= 0]. *)
Theorem peak_to_peak_spec (data : list sample) (thr : R) (a : analysis) :
  calculate_analysis data thr = Ok (Some a) ->
  (exists lo hi, is_min (map ch2 data) lo /\ is_max (map ch2 data) hi /\
     ch2_peak_to_peak (a_ch2 a) = hi - lo) /\
  (exists lo hi, is_min (map ch1 data) lo /\ is_max (map ch1 data) hi /\
     ch1_peak_to_peak (a_ch1 a) = (hi - lo) * 1000) /\
  0 <= ch1_peak_to_peak (a_ch1 a) /\ 0 <= ch2_peak_to_peak (a_ch2 a).
Proof.
  intros Ha.
  destruct (calculate_analysis_some data thr a Ha)
    as (_ & _ & _ & Hl1 & Hh1 & P1 & _ & _ & _ & Hl2 & Hh2 & P2 & _).
  assert (Hle1 : ch1_min (a_ch1 a) <= ch1_max (a_ch1 a)) by (apply Hh1, Hl1).
  assert (Hle2 : ch2_min (a_ch2 a) <= ch2_max (a_ch2 a)) by (apply Hh2, Hl2).
  split; [exists (ch2_min (a_ch2 a)), (ch2_max (a_ch2 a)); auto|].
  split; [exists (ch1_min (a_ch1 a)), (ch1_max (a_ch1 a)); auto|].
  rewrite P1, P2; split; lra.
Qed.

Lemma peak_to_peak_spec_witness :
  exists a, calculate_analysis
    [mk_sample 0 (1/10) 0; mk_sample 1 (3/10) 2; mk_sample 2 (5/100) (1/2)] 1
    = Ok (Some a) /\
    (exists lo hi, is_min [0; 2; 1/2] lo /\ is_max [0; 2; 1/2] hi /\
       ch2_peak_to_peak (a_ch2 a) = hi - lo) /\
    (exists lo hi, is_min [1/10; 3/10; 5/100] lo /\ is_max [1/10; 3/10; 5/100] hi /\
       ch1_peak_to_peak (a_ch1 a) = (hi - lo) * 1000) /\
    0 <= ch1_peak_to_peak (a_ch1 a) /\ 0 <= ch2_peak_to_peak (a_ch2 a).
Proof.
  destruct (calculate_analysis_fit
    [mk_sample 0 (1/10) 0; mk_sample 1 (3/10) 2; mk_sample 2 (5/100) (1/2)] 1
    ltac:(discriminate) ltac:(squares_fit_small)) as (a & Ea).
  exists a; split; [exact Ea|].
  apply (peak_to_peak_spec
    [mk_sample 0 (1/10) 0; mk_sample 1 (3/10) 2; mk_sample 2 (5/100) (1/2)] 1 a Ea).
Defined.

(** ** C7 *)

(** C7: when no line contains the header [TIME,CH1,CH2], [load_csv_data]
    raises [ValueError] and the worker emits the empty dict: no partial
    result. *)
Theorem no_header_value_error (lines : list string) (thr : R) :
  Forall (fun l => str_contains data_header l = false) lines ->
  load_csv_data lines = Err (ValueError "Could not find data header in CSV file") /\
  worker_run lines thr = None.
Proof.
  intros H.
  assert (E : load_csv_data lines =
              Err (ValueError "Could not find data header in CSV file")).
  { unfold load_csv_data; rewrite (find_header_none lines 0 H); reflexivity. }
  split; [exact E|].
  unfold worker_run; rewrite E; reflexivity.
Qed.

Lemma no_header_value_error_witness :
  Forall (fun l => str_contains data_header l = false)
    ["Model,DS1054"; "time,ch1,ch2"; "0.001,0.3,2.0"]%string /\
  load_csv_data ["Model,DS1054"; "time,ch1,ch2"; "0.001,0.3,2.0"]%string
    = Err (ValueError "Could not find data header in CSV file") /\
  worker_run ["Model,DS1054"; "time,ch1,ch2"; "0.001,0.3,2.0"]%string 1 = None.
Proof.
  assert (H : Forall (fun l => str_contains data_header l = false)
                ["Model,DS1054"; "time,ch1,ch2"; "0.001,0.3,2.0"]%string)
    by (repeat constructor).
  split; [exact H|].
  apply no_header_value_error; exact H.
Defined.

(** ** C8 *)

(** C8 (counterexample): the loop takes the times as the file gives them, so
    for rows whose times decrease, the trigger times decrease too. *)
Lemma trigger_times_not_increasing :
  ~ (forall data thr, 0 < thr ->
       increasing Rlt (map tp_time (trigger_points (trigger_scan data thr)))).
Proof.
  intros H.
  specialize (H [mk_sample 0 0 0; mk_sample 5 0 2; mk_sample 1 0 0; mk_sample 2 0 2]
                1 ltac:(lra)).
  rewrite two_pulses_points in H.
  specialize (H 0%nat 1%nat 5 2 ltac:(lia) eq_refl eq_refl); lra.
Qed.

(** C8 (amended): the indices of the trigger points, in emission order, are
    strictly increasing; when the sample times are strictly increasing, so
    are the trigger times. *)
Theorem trigger_points_ordered (data : list sample) (thr : R) :
  increasing lt (map tp_index (trigger_points (trigger_scan data thr))) /\
  (increasing Rlt (map time data) ->
   increasing Rlt (map tp_time (trigger_points (trigger_scan data thr)))).
Proof.
  assert (Hinc := trig_run_increasing data thr (List.length data - 1)).
  split; [exact Hinc|].
  intros Ht i j x y Hij Hx Hy.
  rewrite nth_error_map in Hx, Hy.
  destruct (nth_error (trigger_points (trigger_scan data thr)) i) as [e1|] eqn:E1;
    [|discriminate].
  destruct (nth_error (trigger_points (trigger_scan data thr)) j) as [e2|] eqn:E2;
    [|discriminate].
  simpl in Hx, Hy; injection Hx as <-; injection Hy as <-.
  assert (Hidx : (tp_index e1 < tp_index e2)%nat)
    by (apply (Hinc i j); [exact Hij | apply map_nth_error; exact E1
                          | apply map_nth_error; exact E2]).
  apply nth_error_In in E1, E2.
  unfold trigger_scan in E1, E2.
  apply trig_run_points in E1 as (a & Ha & _ & _ & _ & ->).
  apply trig_run_points in E2 as (b & Hb & _ & _ & _ & ->).
  simpl in Hidx |- *.
  apply (Ht a b); [exact Hidx | |];
    rewrite nth_error_map, (nth_error_nth' data sample0) by lia; reflexivity.
Qed.

(** ** C9 *)

(** C9 (counterexample): a single sample whose channel-1 value is [1e200]
    does not give a valid result: [v**2] in the RMS comprehension raises
    [OverflowError], and the worker run on the file holding this one row
    emits the empty dict. *)
Lemma single_sample_overflow :
  calculate_analysis [mk_sample 0 (IZR (10 ^ 200)) 0] 1 = Err OverflowError /\
  (~ exists a, calculate_analysis [mk_sample 0 (IZR (10 ^ 200)) 0] 1 = Ok (Some a)) /\
  worker_run [data_header; "0,1e200,0"]%string 1 = None.
Proof.
  assert (Hbig : forall v, v = IZR (10 ^ 200) -> square_overflows v = true).
  { intros v ->. unfold square_overflows.
    assert (Hpos : 0 <= IZR (10 ^ 200)) by (apply IZR_le; vm_compute; discriminate).
    rewrite Rabs_pos_eq by exact Hpos.
    assert (H1 : IZR (10 ^ 200) < float_overflow)
      by (unfold float_overflow; apply IZR_lt; vm_compute; reflexivity).
    assert (H2 : float_overflow <= IZR (10 ^ 200) ^ 2)
      by (unfold float_overflow; rewrite pow_IZR; apply IZR_le; vm_compute; discriminate).
    apply Rltb_spec in H1; apply Rleb_spec in H2; rewrite H1, H2; reflexivity. }
  assert (Hc : forall t c2, calculate_analysis [mk_sample t (IZR (10 ^ 200)) c2] 1
                            = Err OverflowError).
  { intros t c2. unfold calculate_analysis; cbv beta iota zeta.
    cbn [map ch1 ch2 time py_min_r py_max_r py_min py_max fold_left bind].
    unfold rms; cbn [py_squares]; unfold py_square.
    rewrite (Hbig _ eq_refl); reflexivity. }
  split; [apply Hc|]. split.
  - intros (a & Ea); rewrite Hc in Ea; discriminate.
  - unfold worker_run.
    assert (Hl : load_csv_data [data_header; "0,1e200,0"]%string
                 = Ok [mk_sample (IZR 0 * powerRZ 10 0 * 1000) (IZR 1 * powerRZ 10 200)
                                 (IZR 0 * powerRZ 10 0)]) by reflexivity.
    assert (Hv : IZR 1 * powerRZ 10 200 = IZR (10 ^ 200)).
    { rewrite Rmult_1_l. change (powerRZ 10 200) with (10 ^ Pos.to_nat 200).
      rewrite pow_IZR; reflexivity. }
    rewrite Hl, Hv; cbn [bind]; rewrite Hc; reflexivity.
Qed.

(** C9 (amended): on a non-empty capture [calculate_analysis] never raises a
    division by zero and never returns the empty dict: the one exception it
    raises is the [OverflowError] of [v**2] in the RMS comprehensions, raised
    exactly when some channel value makes [v**2] overflow; in every result
    [duration = max(time) - min(time)], [sample_rate] is
    [data_points / (duration / 1000)] when [duration > 0] and 0 otherwise,
    and a single sample gives [duration = 0] and [sample_rate = 0]. *)
Theorem sample_rate_guarded (data : list sample) (thr : R) :
  data <> [] ->
  calculate_analysis data thr <> Ok None /\
  (forall e, calculate_analysis data thr = Err e ->
     e = OverflowError /\ squares_fit data = false) /\
  (squares_fit data = true -> exists a, calculate_analysis data thr = Ok (Some a)) /\
  (forall a, calculate_analysis data thr = Ok (Some a) ->
    let md := a_metadata a in
    data_points md = List.length data /\
    (exists tmin tmax, is_min (map time data) tmin /\ is_max (map time data) tmax /\
       duration md = tmax - tmin) /\
    (0 < duration md -> sample_rate md = INR (data_points md) / (duration md / 1000)) /\
    (duration md <= 0 -> sample_rate md = 0) /\
    (List.length data = 1%nat -> duration md = 0 /\ sample_rate md = 0)).
Proof.
  intros Hne.
  split; [apply calculate_analysis_not_none; exact Hne|].
  split; [intros e He; apply calculate_analysis_err in He; tauto|].
  split; [apply calculate_analysis_fit; exact Hne|].
  intros a Ea.
  destruct (calculate_analysis_some data thr a Ea)
    as (_ & _ & _ & _ & _ & _ & _ & _ & _ & _ & _ & _ & _ & _ & _ & _ &
        Ep & Hmin & Hmax & Ed & Er).
  cbv zeta.
  set (tmin := time_start (a_metadata a)) in *.
  set (tmax := time_end (a_metadata a)) in *.
  assert (Hsingle : List.length data = 1%nat -> tmax - tmin = 0).
  { intros H1. destruct data as [|d [|d' ds]]; simpl in H1; try lia.
    destruct Hmin as ([<-|[]] & _); destruct Hmax as ([<-|[]] & _); lra. }
  split; [exact Ep|].
  split; [exists tmin, tmax; auto|].
  rewrite Er, Ep, Ed.
  split; [|split].
  - intros Hpos.
    destruct (1 <? List.length data)%nat eqn:Hl.
    + apply Rltb_spec in Hpos; rewrite Hpos; reflexivity.
    + apply Nat.ltb_ge in Hl.
      assert (List.length data = 1%nat)
        by (destruct data; [congruence | simpl in *; lia]).
      specialize (Hsingle H); lra.
  - intros Hnp. apply Rltb_false in Hnp; rewrite Hnp.
    destruct (1 <? List.length data)%nat; reflexivity.
  - intros H1. rewrite (Hsingle H1), H1. split; reflexivity.
Qed.

Lemma sample_rate_guarded_witness :
  [mk_sample 7 0 0] <> [] /\
  calculate_analysis [mk_sample 7 0 0] 1 <> Ok None /\
  (forall e, calculate_analysis [mk_sample 7 0 0] 1 = Err e ->
     e = OverflowError /\ squares_fit [mk_sample 7 0 0] = false) /\
  (squares_fit [mk_sample 7 0 0] = true ->
     exists a, calculate_analysis [mk_sample 7 0 0] 1 = Ok (Some a)) /\
  (forall a, calculate_analysis [mk_sample 7 0 0] 1 = Ok (Some a) ->
    let md := a_metadata a in
    data_points md = List.length [mk_sample 7 0 0] /\
    (exists tmin tmax, is_min (map time [mk_sample 7 0 0]) tmin /\
       is_max (map time [mk_sample 7 0 0]) tmax /\ duration md = tmax - tmin) /\
    (0 < duration md -> sample_rate md = INR (data_points md) / (duration md / 1000)) /\
    (duration md <= 0 -> sample_rate md = 0) /\
    (List.length [mk_sample 7 0 0] = 1%nat -> duration md = 0 /\ sample_rate md = 0)).
Proof.
  split; [discriminate|].
  apply (sample_rate_guarded [mk_sample 7 0 0] 1); discriminate.
Defined.

(** * Further properties of the code *)

(** ** The trigger loop: two points are at least two samples apart *)

Lemma trigger_points_gap (data : list sample) (thr : R) (k : nat)
  (e1 e2 : trigger_point) :
  nth_error (trigger_points (trigger_scan data thr)) k = Some e1 ->
  nth_error (trigger_points (trigger_scan data thr)) (S k) = Some e2 ->
  (tp_index e1 + 2 <= tp_index e2)%nat.
Proof.
  intros H1 H2.
  assert (Hlt : (tp_index e1 < tp_index e2)%nat).
  { apply (trig_run_increasing data thr (List.length data - 1) k (S k));
      [lia | apply map_nth_error; exact H1 | apply map_nth_error; exact H2]. }
  apply nth_error_In in H1, H2; unfold trigger_scan in H1, H2.
  apply trig_run_points in H1 as (i & Hi & _ & _ & Hcur & ->).
  apply trig_run_points in H2 as (j & Hj & _ & Hprev & _ & ->).
  simpl in Hlt |- *.
  destruct (Nat.eq_dec (j - 1) i) as [E|]; [|lia].
  rewrite E in Hprev; lra.
Qed.

Lemma gapped_length_bound (l : list nat) (a n : nat) :
  (forall k x y, nth_error (a :: l) k = Some x ->
                 nth_error (a :: l) (S k) = Some y -> (x + 2 <= y)%nat) ->
  (forall x, In x (a :: l) -> (x < n)%nat) ->
  (a + 2 * List.length l < n)%nat.
Proof.
  revert a; induction l as [|b l IH]; intros a Hgap Hlt.
  - simpl; rewrite Nat.add_0_r; apply Hlt; left; reflexivity.
  - assert (Hab : (a + 2 <= b)%nat) by (apply (Hgap 0%nat); reflexivity).
    assert (Hb : (b + 2 * List.length l < n)%nat).
    { apply IH.
      - intros k x y Hx Hy; apply (Hgap (S k)); assumption.
      - intros x Hx; apply Hlt; right; exact Hx. }
    simpl; lia.
Qed.

(** X1: the trigger loop records at most one point per two samples:
    [2 * len(trigger_points) <= len(data)]. *)
Theorem trigger_count_bound (data : list sample) (thr : R) :
  (2 * List.length (trigger_points (trigger_scan data thr)) <= List.length data)%nat.
Proof.
  destruct (map tp_index (trigger_points (trigger_scan data thr))) as [|a l] eqn:E.
  - apply map_eq_nil in E; rewrite E; simpl; lia.
  - assert (Hlen : List.length (trigger_points (trigger_scan data thr)) = S (List.length l))
      by (rewrite <- (length_map tp_index), E; reflexivity).
    assert (Hin : forall x, In x (a :: l) -> (1 <= x < List.length data)%nat).
    { intros x Hx; rewrite <- E in Hx.
      apply in_map_iff in Hx as (ev & <- & Hev).
      unfold trigger_scan in Hev; apply trig_run_points in Hev as (i & Hi & _ & _ & _ & ->).
      simpl; lia. }
    assert (Hb : (a + 2 * List.length l < List.length data)%nat).
    { apply gapped_length_bound.
      - intros k x y Hx Hy; rewrite <- E in Hx, Hy.
        rewrite nth_error_map in Hx, Hy.
        destruct (nth_error _ k) as [e1|] eqn:E1; [|discriminate].
        destruct (nth_error _ (S k)) as [e2|] eqn:E2; [|discriminate].
        simpl in Hx, Hy; injection Hx as <-; injection Hy as <-.
        exact (trigger_points_gap data thr k e1 e2 E1 E2).
      - intros x Hx; apply Hin; exact Hx. }
    assert (Ha : (1 <= a)%nat) by (apply Hin; left; reflexivity).
    rewrite Hlen; lia.
Qed.

(** ** The ringdown decay constant *)

(** X2: the decay constant is never negative, and it is positive only when
    the ringdown voltage is positive too. *)
Theorem decay_constant_nonneg (values : list R) :
  exists r, calculate_ringdown values = Ok r /\
    0 <= decay_constant r /\
    (0 < decay_constant r -> 0 < ringdown_voltage r).
Proof.
  exists (ringdown_ref values); split; [apply calculate_ringdown_spec|].
  unfold ringdown_ref.
  destruct (List.length values <? 50)%nat eqn:Hn; [simpl; lra|].
  destruct (List.length values - 20 <=? peak_index values)%nat eqn:Hm; [simpl; lra|].
  apply Nat.leb_gt in Hm.
  set (wl := Nat.min 100 (List.length values - peak_index values)).
  set (ia := Rabs (nth (peak_index values) values 0)).
  set (fa := Rabs (nth (peak_index values + wl - 1) values 0)).
  cbn [decay_constant ringdown_voltage].
  destruct (Rlt_dec 0 fa) as [Hf|Hf]; [|lra].
  destruct (Rlt_dec fa ia) as [Hi|Hi]; [|lra].
  assert (Hwl : 0 < INR wl) by (apply lt_0_INR; subst wl; lia).
  assert (Hratio : 1 < ia / fa)
    by (apply (Rmult_lt_reg_r fa); [exact Hf|]; field_simplify; lra).
  assert (Hln : 0 < ln (ia / fa)) by (rewrite <- ln_1; apply ln_increasing; lra).
  assert (Hpos : 0 < ln (ia / fa) / INR wl) by (apply Rdiv_lt_0_compat; assumption).
  split; [lra | intros _; lra].
Qed.

(** ** What [calculate_analysis] stores *)

(** X3: every result of [calculate_analysis] keeps the samples as
    [raw_data]; on channel 1 it holds [min(ch1)], [max(ch1)], the
    peak-to-peak [(max - min) * 1000], the RMS [sqrt(mean(v**2))], the noise
    [np.std(ch1) * 1000] and the ringdown of channel 1; on channel 2 [min],
    [max], the peak-to-peak [max - min] and the RMS; the threshold it was
    given, the trigger points of the loop and their number as [count]; and
    [time_start = min(time)], [time_end = max(time)] and
    [duration = time_end - time_start].  Hence [min <= max] on both channels,
    the RMS values and the noise are [>= 0] and [time_start <= time_end]. *)
Theorem calculate_analysis_fields (data : list sample) (thr : R) (a : analysis) :
  calculate_analysis data thr = Ok (Some a) ->
  raw_data a = data /\
  is_min (map ch1 data) (ch1_min (a_ch1 a)) /\
  is_max (map ch1 data) (ch1_max (a_ch1 a)) /\
  ch1_peak_to_peak (a_ch1 a) = (ch1_max (a_ch1 a) - ch1_min (a_ch1 a)) * 1000 /\
  ch1_rms (a_ch1 a) = sqrt (np_mean (map (fun v => v ^ 2) (map ch1 data))) /\
  ch1_noise (a_ch1 a) = np_std (map ch1 data) * 1000 /\
  ch1_ringdown (a_ch1 a) = ringdown_ref (map ch1 data) /\
  is_min (map ch2 data) (ch2_min (a_ch2 a)) /\
  is_max (map ch2 data) (ch2_max (a_ch2 a)) /\
  ch2_peak_to_peak (a_ch2 a) = ch2_max (a_ch2 a) - ch2_min (a_ch2 a) /\
  ch2_rms (a_ch2 a) = sqrt (np_mean (map (fun v => v ^ 2) (map ch2 data))) /\
  threshold (a_trigger a) = thr /\
  points (a_trigger a) = trigger_points (trigger_scan data thr) /\
  count (a_trigger a) = List.length (points (a_trigger a)) /\
  is_min (map time data) (time_start (a_metadata a)) /\
  is_max (map time data) (time_end (a_metadata a)) /\
  duration (a_metadata a) = time_end (a_metadata a) - time_start (a_metadata a) /\
  ch1_min (a_ch1 a) <= ch1_max (a_ch1 a) /\
  ch2_min (a_ch2 a) <= ch2_max (a_ch2 a) /\
  0 <= ch1_rms (a_ch1 a) /\ 0 <= ch2_rms (a_ch2 a) /\ 0 <= ch1_noise (a_ch1 a) /\
  time_start (a_metadata a) <= time_end (a_metadata a).
Proof.
  intros Ha.
  destruct (calculate_analysis_some data thr a Ha)
    as (_ & _ & Hraw & Hl1 & Hh1 & P1 & R1 & N1 & D1 & Hl2 & Hh2 & P2 & R2 &
        Ht & Hp & Hc & _ & Hs & He & Hd & _).
  assert (Hle1 : ch1_min (a_ch1 a) <= ch1_max (a_ch1 a)) by (apply Hh1, Hl1).
  assert (Hle2 : ch2_min (a_ch2 a) <= ch2_max (a_ch2 a)) by (apply Hh2, Hl2).
  assert (Hlet : time_start (a_metadata a) <= time_end (a_metadata a)) by (apply He, Hs).
  assert (N0 : 0 <= ch1_noise (a_ch1 a))
    by (rewrite N1; unfold np_std; apply Rmult_le_pos; [apply sqrt_pos | lra]).
  assert (R10 : 0 <= ch1_rms (a_ch1 a)) by (rewrite R1; apply sqrt_pos).
  assert (R20 : 0 <= ch2_rms (a_ch2 a)) by (rewrite R2; apply sqrt_pos).
  repeat match goal with
  | |- _ /\ _ => split; [assumption|]
  end; assumption.
Qed.

Lemma calculate_analysis_fields_witness :
  exists a, calculate_analysis [mk_sample 0 (1/10) 0; mk_sample 1 (3/10) 2] 1
              = Ok (Some a) /\
  raw_data a = [mk_sample 0 (1/10) 0; mk_sample 1 (3/10) 2] /\
  is_min [1/10; 3/10] (ch1_min (a_ch1 a)) /\
  is_max [1/10; 3/10] (ch1_max (a_ch1 a)) /\
  ch1_peak_to_peak (a_ch1 a) = (ch1_max (a_ch1 a) - ch1_min (a_ch1 a)) * 1000 /\
  ch1_rms (a_ch1 a) = sqrt (np_mean (map (fun v => v ^ 2) [1/10; 3/10])) /\
  ch1_noise (a_ch1 a) = np_std [1/10; 3/10] * 1000 /\
  ch1_ringdown (a_ch1 a) = ringdown_ref [1/10; 3/10] /\
  is_min [0; 2] (ch2_min (a_ch2 a)) /\
  is_max [0; 2] (ch2_max (a_ch2 a)) /\
  ch2_peak_to_peak (a_ch2 a) = ch2_max (a_ch2 a) - ch2_min (a_ch2 a) /\
  ch2_rms (a_ch2 a) = sqrt (np_mean (map (fun v => v ^ 2) [0; 2])) /\
  threshold (a_trigger a) = 1 /\
  points (a_trigger a) =
    trigger_points (trigger_scan [mk_sample 0 (1/10) 0; mk_sample 1 (3/10) 2] 1) /\
  count (a_trigger a) = List.length (points (a_trigger a)) /\
  is_min [0; 1] (time_start (a_metadata a)) /\
  is_max [0; 1] (time_end (a_metadata a)) /\
  duration (a_metadata a) = time_end (a_metadata a) - time_start (a_metadata a) /\
  ch1_min (a_ch1 a) <= ch1_max (a_ch1 a) /\
  ch2_min (a_ch2 a) <= ch2_max (a_ch2 a) /\
  0 <= ch1_rms (a_ch1 a) /\ 0 <= ch2_rms (a_ch2 a) /\ 0 <= ch1_noise (a_ch1 a) /\
  time_start (a_metadata a) <= time_end (a_metadata a).
Proof.
  destruct (calculate_analysis_fit [mk_sample 0 (1/10) 0; mk_sample 1 (3/10) 2] 1
    ltac:(discriminate) ltac:(squares_fit_small)) as (a & Ea).
  exists a; split; [exact Ea|].
  apply (calculate_analysis_fields [mk_sample 0 (1/10) 0; mk_sample 1 (3/10) 2] 1 a Ea).
Defined.

(** ** The three outcomes of [calculate_analysis], and what the worker emits *)

(** X4: [calculate_analysis] returns the empty dict exactly on the empty
    capture, raises exactly when the capture is non-empty and some channel
    value makes [v**2] overflow, the exception being [OverflowError], and
    returns a result in every other case.  The worker emits the empty dict
    exactly when [load_csv_data] raises, finds no data row, or finds rows on
    which [v**2] overflows; on the empty dict [evaluate_pass_fail] answers
    ['unknown'] with no criteria. *)
Theorem worker_run_empty_iff (lines : list string) (data : list sample) (thr : R)
  (c : criteria) (has_ringdown : bool) :
  (calculate_analysis data thr = Ok None <-> data = []) /\
  ((exists e, calculate_analysis data thr = Err e) <->
     data <> [] /\ squares_fit data = false) /\
  (forall e, calculate_analysis data thr = Err e -> e = OverflowError) /\
  ((exists a, calculate_analysis data thr = Ok (Some a)) <->
     data <> [] /\ squares_fit data = true) /\
  (worker_run lines thr = None <->
     (exists e, load_csv_data lines = Err e) \/
     (exists d, load_csv_data lines = Ok d /\ (d = [] \/ squares_fit d = false))) /\
  (worker_run lines thr = None ->
     evaluate_pass_fail (worker_run lines thr) c has_ringdown = mk_verdict Unknown []).
Proof.
  assert (Cases : forall d, d <> [] ->
    (exists a, calculate_analysis d thr = Ok (Some a) /\ squares_fit d = true) \/
    (exists e, calculate_analysis d thr = Err e /\ squares_fit d = false)).
  { intros d Hd. destruct (calculate_analysis d thr) as [[a|]|e] eqn:E.
    - left; exists a; split; [reflexivity|].
      exact (proj1 (proj2 (calculate_analysis_some d thr a E))).
    - exfalso; exact (calculate_analysis_not_none d thr Hd E).
    - right; exists e; split; [reflexivity|].
      exact (proj2 (proj2 (calculate_analysis_err d thr e E))). }
  split; [|split; [|split; [|split; [|split]]]].
  - split; [|intros ->; apply calculate_analysis_nil].
    intros E; destruct data as [|d ds]; [reflexivity|].
    exfalso; exact (calculate_analysis_not_none (d :: ds) thr ltac:(discriminate) E).
  - split.
    + intros (e & E); apply calculate_analysis_err in E; tauto.
    + intros (Hne & Hf); destruct (Cases data Hne) as [(a & E & Hf')|(e & E & _)].
      * congruence.
      * exists e; exact E.
  - intros e E; apply calculate_analysis_err in E; tauto.
  - split.
    + intros (a & E); apply calculate_analysis_some in E; tauto.
    + intros (Hne & Hf); apply calculate_analysis_fit; assumption.
  - unfold worker_run; destruct (load_csv_data lines) as [d|e]; cbn [bind].
    + destruct d as [|s ss].
      * split; [intros _; right; exists []; split; [reflexivity | left; reflexivity]|].
        intros _; rewrite calculate_analysis_nil; reflexivity.
      * destruct (Cases (s :: ss) ltac:(discriminate))
          as [(a & E & Hf)|(e & E & Hf)]; rewrite E.
        -- split; [discriminate|].
           intros [(e & He)|(d & Hd & [Hd'|Hd'])]; [discriminate | |];
             injection Hd as <-; congruence.
        -- split; [intros _; right; exists (s :: ss); split; [reflexivity | right; exact Hf]|].
           intros _; reflexivity.
    + split; [intros _; left; exists e; reflexivity | intros _; reflexivity].
  - intros H; rewrite H; reflexivity.
Qed.

(** ** The zoom window of [plot_data] *)

Lemma slice_length {A} (l : list A) (s e : nat) :
  (e <= List.length l)%nat -> List.length (slice l s e) = (e - s)%nat.
Proof.
  intros He; unfold slice.
  rewrite length_firstn, length_skipn; lia.
Qed.

Lemma slice_nth_In {A} (l : list A) (s e i : nat) (d : A) :
  (s <= i < e)%nat -> (i < List.length l)%nat -> In (nth i l d) (slice l s e).
Proof.
  intros Hi Hl; unfold slice.
  replace (nth i l d) with (nth (i - s) (firstn (e - s) (skipn s l)) d).
  - apply nth_In; rewrite length_firstn, length_skipn; lia.
  - rewrite nth_firstn, nth_skipn.
    replace (i - s <? e - s)%nat with true by (symmetry; apply Nat.ltb_lt; lia).
    f_equal; lia.
Qed.

Lemma filter_none {A} (f : A -> bool) (l : list A) :
  (forall x, In x l -> f x = false) -> filter f l = [].
Proof.
  induction l as [|x l IH]; intros H; [reflexivity|]; simpl.
  rewrite (H x (or_introl eq_refl)); apply IH; intros y Hy; apply H; right; exact Hy.
Qed.

Lemma filter_all {A} (f : A -> bool) (l : list A) :
  (forall x, In x l -> f x = true) -> filter f l = l.
Proof.
  induction l as [|x l IH]; intros H; [reflexivity|]; simpl.
  rewrite (H x (or_introl eq_refl)); f_equal; apply IH; intros y Hy; apply H; right; exact Hy.
Qed.

Lemma zoom_index_bound (n z : nat) : (z <= 100)%nat -> (n * z / 100 <= n)%nat.
Proof.
  intros Hz; apply Nat.Div0.div_le_upper_bound; nia.
Qed.

(** X5: for the analysis of a non-empty capture and a zoom end of at most
    100 %, [plot_data] draws three series of [end_idx - start_idx] points,
    with [end_idx <= len(data)], the two trigger lines at [+trigger_current]
    and [-trigger_current], and markers only at times that are among the
    plotted times; a zoom end not above the zoom start draws no point and no
    marker, and the default zoom [(0, 100)] draws every sample and marks every
    trigger point. *)
Theorem plot_window (data : list sample) (thr : R) (a : analysis)
  (zoom_start zoom_end : nat) :
  calculate_analysis data thr = Ok (Some a) ->
  (zoom_end <= 100)%nat ->
  exists p, plot_data (Some a) thr zoom_start zoom_end = Some p /\
    let start_idx := (List.length data * zoom_start / 100)%nat in
    let end_idx := (List.length data * zoom_end / 100)%nat in
    (end_idx <= List.length data)%nat /\
    List.length (plot_times p) = (end_idx - start_idx)%nat /\
    List.length (plot_ch1 p) = (end_idx - start_idx)%nat /\
    List.length (plot_ch2 p) = (end_idx - start_idx)%nat /\
    trigger_lines p = [thr; - thr] /\
    (forall t, In t (marker_times p) -> In t (plot_times p)) /\
    ((zoom_end <= zoom_start)%nat -> plot_times p = [] /\ marker_times p = []) /\
    (zoom_start = 0%nat -> zoom_end = 100%nat ->
       plot_times p = map time data /\
       marker_times p = map tp_time (points (a_trigger a))).
Proof.
  intros Ha Hz.
  destruct (calculate_analysis_some data thr a Ha)
    as (_ & _ & Hraw & _ & _ & _ & _ & _ & _ & _ & _ & _ & _ & _ & Hpts & _).
  destruct data as [|d ds]; [discriminate|].
  set (data := d :: ds) in *.
  set (s := (List.length data * zoom_start / 100)%nat).
  set (e := (List.length data * zoom_end / 100)%nat).
  assert (He : (e <= List.length data)%nat) by (apply zoom_index_bound; exact Hz).
  unfold plot_data; rewrite Hraw.
  eexists; split; [reflexivity|]; cbv zeta; cbn [plot_times plot_ch1 plot_ch2
    trigger_lines marker_times].
  fold s e.
  split; [exact He|].
  split; [apply slice_length; rewrite length_map; exact He|].
  split; [apply slice_length; rewrite length_map; exact He|].
  split; [apply slice_length; rewrite length_map; exact He|].
  split; [reflexivity|].
  split; [|split].
  - intros t Ht.
    apply in_map_iff in Ht as (pt & <- & Hpt).
    apply filter_In in Hpt as (Hpt & Hwin).
    apply andb_prop in Hwin as (H1 & H2).
    apply Nat.leb_le in H1; apply Nat.ltb_lt in H2.
    rewrite Hpts in Hpt; unfold trigger_scan in Hpt.
    apply trig_run_points in Hpt as (i & Hi & _ & _ & _ & Ept).
    rewrite Ept in H1, H2 |- *; cbn [tp_time tp_index] in *.
    unfold at_; rewrite <- (map_nth time data sample0 i).
    apply slice_nth_In; [lia | rewrite length_map; lia].
  - intros Hle.
    assert (Hse : (e <= s)%nat) by (apply Nat.Div0.div_le_mono; nia).
    split.
    + unfold slice; replace (e - s)%nat with 0%nat by lia; reflexivity.
    + rewrite filter_none; [reflexivity|]; intros pt _.
      destruct (s <=? tp_index pt)%nat eqn:E1; [|reflexivity].
      apply Nat.leb_le in E1; apply Nat.ltb_ge; lia.
  - intros -> ->.
    replace s with 0%nat by (subst s; rewrite Nat.mul_0_r; reflexivity).
    replace e with (List.length data) by (subst e; rewrite Nat.div_mul; [reflexivity | discriminate]).
    split.
    + unfold slice; rewrite Nat.sub_0_r; cbn [skipn].
      rewrite <- (length_map time data); apply firstn_all.
    + f_equal; apply filter_all; intros pt Hpt.
      rewrite Hpts in Hpt; unfold trigger_scan in Hpt.
      apply trig_run_points in Hpt as (i & Hi & _ & _ & _ & ->); cbn [tp_index].
      apply andb_true_intro; split; [apply Nat.leb_le | apply Nat.ltb_lt]; lia.
Qed.

Lemma plot_window_witness :
  exists a, calculate_analysis [mk_sample 0 0 0; mk_sample 1 0 2] 1 = Ok (Some a) /\
    (100 <= 100)%nat /\
    exists p, plot_data (Some a) 1 0 100 = Some p /\
    let start_idx := (List.length [mk_sample 0 0 0; mk_sample 1 0 2] * 0 / 100)%nat in
    let end_idx := (List.length [mk_sample 0 0 0; mk_sample 1 0 2] * 100 / 100)%nat in
    (end_idx <= List.length [mk_sample 0 0 0; mk_sample 1 0 2])%nat /\
    List.length (plot_times p) = (end_idx - start_idx)%nat /\
    List.length (plot_ch1 p) = (end_idx - start_idx)%nat /\
    List.length (plot_ch2 p) = (end_idx - start_idx)%nat /\
    trigger_lines p = [1; - 1] /\
    (forall t, In t (marker_times p) -> In t (plot_times p)) /\
    ((100 <= 0)%nat -> plot_times p = [] /\ marker_times p = []) /\
    (0%nat = 0%nat -> 100%nat = 100%nat ->
       plot_times p = map time [mk_sample 0 0 0; mk_sample 1 0 2] /\
       marker_times p = map tp_time (points (a_trigger a))).
Proof.
  destruct (calculate_analysis_fit [mk_sample 0 0 0; mk_sample 1 0 2] 1
              ltac:(discriminate) ltac:(squares_fit_small)) as (a & Ea).
  exists a; split; [exact Ea|]; split; [lia|].
  apply (plot_window [mk_sample 0 0 0; mk_sample 1 0 2] 1 a 0 100 Ea); lia.
Defined.

(** ** Table names *)

(** X6: for every configured test type, [save_analysis] writes to a table
    that [get_all_results] reads and that the schema creates; the table maps
    back to the test type in upper case; and the [test_type] filter of
    [get_all_results] keeps exactly that table. *)
Theorem table_name_round_trip (t : string) :
  In t config_keys ->
  In (table_name t) all_tables /\
  table_test_type (table_name t) = py_upper t /\
  schema_columns (table_name t) <> None /\
  (forall table, In table all_tables ->
     keeps_table (Some t) table = true <-> table = table_name t).
Proof.
  intros Ht.
  cbn in Ht; destruct Ht as [<-|[<-|[<-|[<-|[<-|[]]]]]];
    (split; [vm_compute; tauto|]);
    (split; [vm_compute; reflexivity|]);
    (split; [vm_compute; discriminate|]);
    intros table Htab;
    cbn in Htab; destruct Htab as [<-|[<-|[<-|[<-|[<-|[]]]]]];
    vm_compute; split; intros H; first [reflexivity | discriminate H].
Qed.

Lemma table_name_round_trip_witness :
  In "DC03 Skid"%string config_keys /\
  In (table_name "DC03 Skid") all_tables /\
  table_test_type (table_name "DC03 Skid") = py_upper "DC03 Skid" /\
  schema_columns (table_name "DC03 Skid") <> None /\
  (forall table, In table all_tables ->
     keeps_table (Some "DC03 Skid"%string) table = true <-> table = table_name "DC03 Skid").
Proof.
  assert (H : In "DC03 Skid"%string config_keys) by (cbn; tauto).
  split; [exact H | apply (table_name_round_trip "DC03 Skid" H)].
Defined.

(** ** The queries of [get_all_results] *)

(** X7: for each table of [get_all_results] and any filters, the query it
    executes has one [%s] placeholder per parameter, and no other [%]. *)
Theorem select_query_placeholders (table : string) (fl : option filters)
  (q : string) (ps : list db_param) :
  In table all_tables ->
  select_query table fl = Some (q, ps) ->
  py_count "%s" q = List.length ps /\ py_count "%" q = List.length ps.
Proof.
  intros Ht Hq; unfold select_query in Hq.
  destruct fl as [f|].
  - destruct (keeps_table (f_test_type f) table); [|discriminate].
    unfold filter_items in Hq; cbv zeta in Hq.
    repeat match type of Hq with
           | context [match ?x with Some _ => _ | None => _ end] => destruct x
           | context [if ?b then _ else _] =>
               lazymatch type of b with bool => destruct b end
           end;
      injection Hq as <- <-;
      cbn in Ht; destruct Ht as [<-|[<-|[<-|[<-|[<-|[]]]]]];
      vm_compute; split; reflexivity.
  - injection Hq as <- <-.
    cbn in Ht; destruct Ht as [<-|[<-|[<-|[<-|[<-|[]]]]]];
      vm_compute; split; reflexivity.
Qed.

Open Scope string_scope.

Lemma select_query_placeholders_witness :
  In "dtt_analysis"%string all_tables /\
  select_query "dtt_analysis"
    (Some (mk_filters (Some "DTT") (Some "Pass") (Some "bob") None (Some 3%Z) None))
  = Some ("SELECT *, 'dtt_analysis' as source_table FROM dtt_analysis WHERE pass_fail = %s AND tester_id ILIKE %s AND test_date >= %s ORDER BY analysis_date DESC"%string,
          [PText "pass"; PText "%bob%"; PDate 3]) /\
  py_count "%s" "SELECT *, 'dtt_analysis' as source_table FROM dtt_analysis WHERE pass_fail = %s AND tester_id ILIKE %s AND test_date >= %s ORDER BY analysis_date DESC"
    = List.length [PText "pass"; PText "%bob%"; PDate 3] /\
  py_count "%" "SELECT *, 'dtt_analysis' as source_table FROM dtt_analysis WHERE pass_fail = %s AND tester_id ILIKE %s AND test_date >= %s ORDER BY analysis_date DESC"
    = List.length [PText "pass"; PText "%bob%"; PDate 3].
Proof.
  assert (Hin : In "dtt_analysis"%string all_tables) by (cbn; tauto).
  assert (Hq : select_query "dtt_analysis"
    (Some (mk_filters (Some "DTT") (Some "Pass") (Some "bob") None (Some 3%Z) None))
    = Some ("SELECT *, 'dtt_analysis' as source_table FROM dtt_analysis WHERE pass_fail = %s AND tester_id ILIKE %s AND test_date >= %s ORDER BY analysis_date DESC"%string,
            [PText "pass"; PText "%bob%"; PDate 3])) by (vm_compute; reflexivity).
  split; [exact Hin|]; split; [exact Hq|].
  apply (select_query_placeholders _ _ _ _ Hin Hq).
Defined.

(** ** [save_analysis] of the window *)

Lemma assoc_str_In {A} (k : string) (l : list (string * A)) (v : A) :
  assoc_str k l = Some v -> In (k, v) l.
Proof.
  induction l as [|[k' v'] l IH]; simpl; [discriminate|].
  destruct (String.eqb k k') eqn:E.
  - intros H; injection H as <-; apply String.eqb_eq in E; subst; left; reflexivity.
  - intros H; right; apply IH; exact H.
Qed.

Lemma incl_str_b (l1 l2 : list string) :
  forallb (fun k => existsb (String.eqb k) l2) l1 = true ->
  forall k, In k l1 -> In k l2.
Proof.
  intros H k Hk.
  rewrite forallb_forall in H; specialize (H k Hk).
  apply existsb_exists in H as (k' & Hk' & E).
  apply String.eqb_eq in E; subst; exact Hk'.
Qed.

Lemma missing_fields_In (g : gui) (name : string) :
  In name (missing_fields g) <->
    (name = "Test Number"%string /\ strip (test_number_text g) = ""%string) \/
    (name = "Test Bench"%string /\ strip (test_bench_text g) = ""%string) \/
    (name = "Tester ID"%string /\ strip (tester_id_text g) = ""%string).
Proof.
  unfold missing_fields, required_fields; simpl.
  destruct (String.eqb (strip (test_number_text g)) "") eqn:E1;
  destruct (String.eqb (strip (test_bench_text g)) "") eqn:E2;
  destruct (String.eqb (strip (tester_id_text g)) "") eqn:E3;
  repeat match goal with
         | H : String.eqb _ _ = true |- _ => apply String.eqb_eq in H
         | H : String.eqb _ _ = false |- _ => apply String.eqb_neq in H
         end;
  simpl; split; intuition congruence.
Qed.

Lemma missing_fields_NoDup (g : gui) : NoDup (missing_fields g).
Proof.
  unfold missing_fields, required_fields; simpl.
  destruct (String.eqb (strip (test_number_text g)) "");
  destruct (String.eqb (strip (tester_id_text g)) "");
  destruct (String.eqb (strip (test_bench_text g)) "");
  simpl; repeat constructor; simpl; intuition discriminate.
Qed.

Lemma missing_fields_nil (g : gui) :
  missing_fields g = [] <->
    strip (test_number_text g) <> ""%string /\ strip (test_bench_text g) <> ""%string /\
    strip (tester_id_text g) <> ""%string.
Proof.
  split.
  - intros H.
    assert (Hin : forall name,
      (name = "Test Number" /\ strip (test_number_text g) = "") \/
      (name = "Test Bench" /\ strip (test_bench_text g) = "") \/
      (name = "Tester ID" /\ strip (tester_id_text g) = "") -> In name (missing_fields g))
      by (intros name; apply missing_fields_In).
    rewrite H in Hin.
    repeat split; intros E.
    + apply (Hin "Test Number"); left; split; [reflexivity | exact E].
    + apply (Hin "Test Bench"); right; left; split; [reflexivity | exact E].
    + apply (Hin "Tester ID"); right; right; split; [reflexivity | exact E].
  - intros (H1 & H2 & H3).
    destruct (missing_fields g) as [|name ms] eqn:E; [reflexivity|].
    assert (Hin : In name (missing_fields g)) by (rewrite E; left; reflexivity).
    apply missing_fields_In in Hin; tauto.
Qed.

Lemma evaluate_some_overall (a : analysis) (c : criteria) (h : bool) :
  overall (evaluate_pass_fail (Some a) c h) = Pass \/
  overall (evaluate_pass_fail (Some a) c h) = Fail.
Proof.
  unfold evaluate_pass_fail; cbn [overall].
  destruct (forallb _ _); [left | right]; reflexivity.
Qed.

Lemma In_str_b (k : string) (l : list string) :
  In k l <-> existsb (String.eqb k) l = true.
Proof.
  rewrite existsb_exists; split.
  - intros H; exists k; split; [exact H | apply String.eqb_refl].
  - intros (k' & Hk' & E); apply String.eqb_eq in E; subst; exact Hk'.
Qed.

Lemma config_lookup_keys (k : string) :
  In k config_keys -> exists cfg, config_lookup k = Some cfg.
Proof.
  cbn; intros [<-|[<-|[<-|[<-|[<-|[]]]]]]; eexists; reflexivity.
Qed.

Ltac save_inversion H a Ea Em cfg Ec :=
  unfold save_analysis_gui in H;
  destruct (current_analysis _) as [a|] eqn:Ea; [|discriminate H];
  destruct (missing_fields _) eqn:Em; [|discriminate H];
  unfold config_lookup in H;
  destruct (assoc_str (test_type_text _) test_type_configs) as [cfg|] eqn:Ec;
    [|discriminate H];
  apply assoc_str_In in Ec.

(** X8: [save_analysis] warns and stops when there is no analysis; with an
    analysis it warns exactly when one of the three required fields is blank
    after [strip()], and the warning names each blank field once and no
    other; when the fields are filled and the test type is a configured one,
    it hands a row to [DatabaseManager.save_analysis]. *)
Theorem save_analysis_validation (g : gui) (today now : Z) :
  (current_analysis g = None -> save_analysis_gui g today now = NoAnalysisWarning) /\
  (forall a, current_analysis g = Some a ->
     (forall ms, save_analysis_gui g today now = MissingFieldsWarning ms ->
        NoDup ms /\
        forall name, In name ms <->
          (name = "Test Number" /\ strip (test_number_text g) = "") \/
          (name = "Test Bench" /\ strip (test_bench_text g) = "") \/
          (name = "Tester ID" /\ strip (tester_id_text g) = "")) /\
     ((exists ms, save_analysis_gui g today now = MissingFieldsWarning ms) <->
        strip (test_number_text g) = "" \/ strip (test_bench_text g) = "" \/
        strip (tester_id_text g) = "") /\
     (strip (test_number_text g) <> "" -> strip (test_bench_text g) <> "" ->
      strip (tester_id_text g) <> "" -> In (test_type_text g) config_keys ->
      exists row, save_analysis_gui g today now = SaveRequest (test_type_text g) row)).
Proof.
  split; [intros E; unfold save_analysis_gui; rewrite E; reflexivity|].
  intros a Ea; unfold save_analysis_gui; rewrite Ea.
  split; [|split].
  - intros ms Hm.
    destruct (missing_fields g) as [|n ns] eqn:Em;
      [destruct (config_lookup _); discriminate|].
    injection Hm as <-; rewrite <- Em.
    split; [apply missing_fields_NoDup | intros name; apply missing_fields_In].
  - split.
    + intros (ms & Hm).
      destruct (missing_fields g) as [|n ns] eqn:Em;
        [destruct (config_lookup _); discriminate|].
      assert (Hin : In n (missing_fields g)) by (rewrite Em; left; reflexivity).
      apply missing_fields_In in Hin; tauto.
    + intros Hb.
      destruct (missing_fields g) as [|n ns] eqn:Em; [|eexists; reflexivity].
      exfalso; apply missing_fields_nil in Em; tauto.
  - intros H1 H2 H3 Hk.
    assert (Em : missing_fields g = []) by (apply missing_fields_nil; tauto).
    rewrite Em.
    destruct (config_lookup_keys _ Hk) as (cfg & Ec); rewrite Ec.
    eexists; reflexivity.
Qed.

(** X9: a row handed to the database comes from a window with an analysis
    and a configured test type whose three required fields are not blank;
    it stores the texts of these fields as typed (not stripped), today's
    date, and ['pass'] or ['fail'] as [evaluate_pass_fail] decides with the
    test type's [has_ringdown] (never ['unknown']); only DC02 rows carry the
    ringdown voltage, and only IDOD rows the skid plate diameter. *)
Theorem save_request_values (g : gui) (today now : Z) (tt : string)
  (row : list (string * db_value)) :
  save_analysis_gui g today now = SaveRequest tt row ->
  exists a cfg,
    current_analysis g = Some a /\ tt = test_type_text g /\
    config_lookup tt = Some cfg /\
    strip (test_number_text g) <> "" /\ strip (test_bench_text g) <> "" /\
    strip (tester_id_text g) <> "" /\
    assoc_str "test_number" row = Some (VText (test_number_text g)) /\
    assoc_str "test_bench" row = Some (VText (test_bench_text g)) /\
    assoc_str "tester_id" row = Some (VText (tester_id_text g)) /\
    assoc_str "test_date" row = Some (VDate today) /\
    (cfg_has_ringdown cfg = true <-> tt = "DC02") /\
    ((assoc_str "pass_fail" row = Some (VText "pass") /\
      overall (evaluate_pass_fail (Some a) (gui_criteria g) (cfg_has_ringdown cfg)) = Pass) \/
     (assoc_str "pass_fail" row = Some (VText "fail") /\
      overall (evaluate_pass_fail (Some a) (gui_criteria g) (cfg_has_ringdown cfg)) = Fail)) /\
    (In "ringdown_voltage_mv" (map fst row) <-> tt = "DC02") /\
    (In "ringdown_lsl" (map fst row) <-> tt = "DC02") /\
    (In "ringdown_usl" (map fst row) <-> tt = "DC02") /\
    (In "skid_plate_diameter" (map fst row) <-> tt = "IDOD").
Proof.
  intros H.
  save_inversion H a Ea Em cfg Ec.
  apply missing_fields_nil in Em as (H1 & H2 & H3).
  injection H as <- <-.
  match goal with
  | |- context [assoc_str "pass_fail" ?r] =>
      assert (Hpf : assoc_str "pass_fail" r = Some (VText (overall_text
                      (overall (evaluate_pass_fail (Some a) (gui_criteria g)
                                  (cfg_has_ringdown cfg))))))
        by (destruct (cfg_has_skid_plate cfg), (cfg_has_ringdown cfg); reflexivity)
  end.
  exists a, cfg.
  destruct (evaluate_some_overall a (gui_criteria g) (cfg_has_ringdown cfg)) as [Eo|Eo];
  rewrite Eo in Hpf;
  cbn in Ec; destruct Ec as [Ec|[Ec|[Ec|[Ec|[Ec|[]]]]]];
    injection Ec as Ek <-; rewrite <- Ek;
    (split; [first [exact Ea | reflexivity]|]); (split; [reflexivity|]);
    (split; [reflexivity|]);
    do 3 (split; [assumption|]);
    do 4 (split; [reflexivity|]);
    (split; [cbn; split; intros E; first [reflexivity | discriminate E]|]);
    (split; [first [left; split; [exact Hpf | exact Eo]
                   | right; split; [exact Hpf | exact Eo]]|]);
    cbn [map fst app cfg_has_ringdown cfg_has_skid_plate];
    repeat match goal with
    | |- _ /\ _ => split
    | |- In _ _ <-> _ =>
        rewrite In_str_b; vm_compute; split; intros E;
        first [reflexivity | discriminate E]
    end.
Qed.

(** X10: every row handed to the database has distinct keys, all of them
    columns of the table the schema creates for its test type, and it fills
    every [NOT NULL] column of that table; the [INSERT] query built by
    [DatabaseManager.save_analysis] has one value per column and one [%s]
    per value, and no other [%]. *)
Theorem save_request_schema (g : gui) (today now : Z) (tt : string)
  (row : list (string * db_value)) :
  save_analysis_gui g today now = SaveRequest tt row ->
  NoDup (map fst row) /\
  List.length (snd (db_insert tt row)) = List.length (map fst row) /\
  py_count "%s" (fst (db_insert tt row)) = List.length (snd (db_insert tt row)) /\
  py_count "%" (fst (db_insert tt row)) = List.length (snd (db_insert tt row)) /\
  exists cols, schema_columns (table_name tt) = Some cols /\
    (forall k, In k (map fst row) -> In k (map fst cols)) /\
    (forall k, In (k, true) cols -> In k (map fst row)).
Proof.
  intros H.
  save_inversion H a Ea Em cfg Ec.
  injection H as <- <-.
  cbn in Ec; destruct Ec as [Ec|[Ec|[Ec|[Ec|[Ec|[]]]]]];
    injection Ec as Ek <-; rewrite <- Ek;
    unfold db_insert;
    cbn [fst snd map app List.length cfg_has_ringdown cfg_has_skid_plate];
    (split; [repeat constructor; cbn; intuition discriminate|]);
    (split; [reflexivity|]);
    (split; [vm_compute; reflexivity|]);
    (split; [vm_compute; reflexivity|]);
    eexists; (split; [vm_compute; reflexivity|]);
    (split; [apply incl_str_b; vm_compute; reflexivity|]);
    intros k Hk;
    match type of Hk with
    | In _ ?c =>
        apply (incl_str_b (map fst (filter snd c))); [vm_compute; reflexivity|];
        apply in_map_iff; exists (k, true); split; [reflexivity|];
        apply filter_In; split; [exact Hk | reflexivity]
    end.
Qed.

(** ** [get_analytics_summary] and the breakdown of [update_analytics] *)

Lemma opt_str_eqb_spec (x y : option string) : opt_str_eqb x y = true <-> x = y.
Proof.
  destruct x as [a|], y as [b|]; simpl; try (split; congruence).
  rewrite String.eqb_eq; split; congruence.
Qed.

Lemma opt_str_eqb_refl (x : option string) : opt_str_eqb x x = true.
Proof. apply opt_str_eqb_spec; reflexivity. Qed.

Lemma existsb_opt_str_In (k : option string) (l : list (option string)) :
  existsb (opt_str_eqb k) l = true <-> In k l.
Proof.
  rewrite existsb_exists; split.
  - intros (k' & H & E); apply opt_str_eqb_spec in E; subst; exact H.
  - intros H; exists k; split; [exact H | apply opt_str_eqb_refl].
Qed.

Lemma group_by_snoc (key : db_row -> option string) (rows : list db_row) (r : db_row) :
  group_by key (rows ++ [r])%list = group_update (key r) r (group_by key rows).
Proof. unfold group_by; rewrite fold_left_app; reflexivity. Qed.

Lemma group_update_keys (k : option string) (r : db_row) (acc : list (option string * counts)) :
  map fst (group_update k r acc) =
  if existsb (opt_str_eqb k) (map fst acc) then map fst acc else (map fst acc ++ [k])%list.
Proof.
  induction acc as [|[k' c] acc IH]; [reflexivity|]; simpl.
  destruct (opt_str_eqb k k'); simpl; [reflexivity|].
  rewrite IH; destruct (existsb _ _); reflexivity.
Qed.

Lemma group_update_In (k : option string) (r : db_row) (acc : list (option string * counts))
  (k' : option string) (c' : counts) :
  NoDup (map fst acc) ->
  In (k', c') (group_update k r acc) ->
  (k' = k /\ ((exists c, In (k, c) acc /\ c' = bump c r) \/
              (~ In k (map fst acc) /\ c' = bump (mk_counts 0 0 0) r))) \/
  (k' <> k /\ In (k', c') acc).
Proof.
  induction acc as [|[k0 c0] acc IH]; intros Hnd Hin; simpl in Hin.
  - destruct Hin as [E|[]]; injection E as <- <-.
    left; split; [reflexivity|]; right; split; [intros []|reflexivity].
  - simpl in Hnd; apply NoDup_cons_iff in Hnd as (Hk0 & Hnd).
    destruct (opt_str_eqb k k0) eqn:E.
    + apply opt_str_eqb_spec in E; subst k0.
      destruct Hin as [E'|Hin].
      * injection E' as <- <-; left; split; [reflexivity|].
        left; exists c0; split; [left; reflexivity | reflexivity].
      * right; split; [|right; exact Hin].
        intros E'; apply Hk0; apply in_map_iff; exists (k', c'); split; [exact E'|exact Hin].
    + destruct Hin as [E'|Hin].
      * injection E' as <- <-; right; split; [|left; reflexivity].
        intros ->; rewrite opt_str_eqb_refl in E; discriminate.
      * destruct (IH Hnd Hin) as [(-> & [(c & Hc & ->) | (Hn & ->)]) | (Hne & Hc)].
        -- left; split; [reflexivity|]; left; exists c; split; [right; exact Hc | reflexivity].
        -- left; split; [reflexivity|]; right; split; [|reflexivity].
           simpl; intros [E'|E']; [subst; rewrite opt_str_eqb_refl in E; discriminate|tauto].
        -- right; split; [exact Hne | right; exact Hc].
Qed.

Lemma group_update_total (k : option string) (r : db_row) (acc : list (option string * counts)) :
  list_sum (map (fun kc => c_total (snd kc)) (group_update k r acc)) =
  S (list_sum (map (fun kc => c_total (snd kc)) acc)).
Proof.
  induction acc as [|[k' c] acc IH]; simpl.
  - unfold bump; destruct (is_pass r); reflexivity.
  - destruct (opt_str_eqb k k'); simpl.
    + unfold bump; destruct (is_pass r); simpl; lia.
    + rewrite IH; lia.
Qed.

Lemma group_update_pass (k : option string) (r : db_row) (acc : list (option string * counts)) :
  list_sum (map (fun kc => c_pass (snd kc)) (group_update k r acc)) =
  ((if is_pass r then 1 else 0) + list_sum (map (fun kc => c_pass (snd kc)) acc))%nat.
Proof.
  induction acc as [|[k' c] acc IH]; simpl.
  - unfold bump; destruct (is_pass r); reflexivity.
  - destruct (opt_str_eqb k k'); simpl.
    + unfold bump; destruct (is_pass r); simpl; lia.
    + rewrite IH; lia.
Qed.

Lemma NoDup_snoc {A} (l : list A) (x : A) : NoDup l -> ~ In x l -> NoDup (l ++ [x])%list.
Proof.
  intros Hl Hx; apply NoDup_app; [exact Hl | repeat constructor; intros [] |].
  intros a Ha [<-|[]]; exact (Hx Ha).
Qed.

Lemma group_by_spec (key : db_row -> option string) (rows : list db_row) :
  NoDup (map fst (group_by key rows)) /\
  (forall k, In k (map fst (group_by key rows)) <-> exists r, In r rows /\ key r = k) /\
  (forall k c, In (k, c) (group_by key rows) ->
     c_total c = List.length (filter (fun r => opt_str_eqb (key r) k) rows) /\
     c_pass c = List.length (filter (fun r => opt_str_eqb (key r) k && is_pass r) rows) /\
     c_fail c = List.length (filter (fun r => opt_str_eqb (key r) k && negb (is_pass r)) rows)) /\
  list_sum (map (fun kc => c_total (snd kc)) (group_by key rows)) = List.length rows /\
  list_sum (map (fun kc => c_pass (snd kc)) (group_by key rows)) =
    List.length (filter is_pass rows).
Proof.
  induction rows as [|r rows IH] using rev_ind.
  - cbn; split; [constructor|]; split; [intros k; split; [intros []|intros (r & [] & _)]|].
    split; [intros k c []|]; split; reflexivity.
  - destruct IH as (Hnd & Hkeys & Hc & Ht & Hp).
    rewrite group_by_snoc.
    set (acc := group_by key rows) in *.
    split; [|split; [|split; [|split]]].
    + rewrite group_update_keys.
      destruct (existsb _ _) eqn:E; [exact Hnd|].
      apply NoDup_snoc; [exact Hnd|].
      intros Hin; apply existsb_opt_str_In in Hin; congruence.
    + intros k; rewrite group_update_keys.
      destruct (existsb _ _) eqn:E.
      * apply existsb_opt_str_In in E.
        rewrite Hkeys; split.
        -- intros (r' & Hr' & <-); exists r'; split; [apply in_or_app; left; exact Hr'|reflexivity].
        -- intros (r' & Hr' & <-). apply in_app_or in Hr' as [Hr'|[<-|[]]].
           ++ exists r'; split; [exact Hr'|reflexivity].
           ++ apply Hkeys in E; exact E.
      * rewrite in_app_iff, Hkeys; simpl; split.
        -- intros [(r' & Hr' & <-)|[<-|[]]].
           ++ exists r'; split; [apply in_or_app; left; exact Hr'|reflexivity].
           ++ exists r; split; [apply in_or_app; right; left; reflexivity|reflexivity].
        -- intros (r' & Hr' & <-); apply in_app_or in Hr' as [Hr'|[<-|[]]].
           ++ left; exists r'; split; [exact Hr'|reflexivity].
           ++ right; left; reflexivity.
    + intros k c Hin.
      rewrite !filter_app; rewrite !length_app; simpl.
      destruct (group_update_In _ _ _ _ _ Hnd Hin)
        as [(-> & [(c0 & Hc0 & ->) | (Hn & ->)]) | (Hne & Hc0)].
      * rewrite opt_str_eqb_refl; simpl.
        destruct (Hc _ _ Hc0) as (E1 & E2 & E3).
        unfold bump; destruct (is_pass r); simpl; lia.
      * rewrite opt_str_eqb_refl; simpl.
        assert (Hz : forall r', In r' rows -> opt_str_eqb (key r') (key r) = false).
        { intros r' Hr'; destruct (opt_str_eqb (key r') (key r)) eqn:E; [|reflexivity].
          apply opt_str_eqb_spec in E; exfalso; apply Hn, Hkeys; exists r'; split; assumption. }
        rewrite !(filter_none _ rows)
          by (intros r' Hr'; cbv beta; rewrite (Hz r' Hr'); reflexivity).
        unfold bump; destruct (is_pass r); simpl; lia.
      * destruct (Hc _ _ Hc0) as (E1 & E2 & E3).
        destruct (opt_str_eqb (key r) k) eqn:E;
          [apply opt_str_eqb_spec in E; congruence|].
        simpl; lia.
    + rewrite group_update_total, Ht, length_app; simpl; lia.
    + rewrite group_update_pass, Hp, filter_app, length_app; simpl.
      destruct (is_pass r); simpl; lia.
Qed.

Lemma filter_split {A} (f p : A -> bool) (l : list A) :
  List.length (filter f l) =
  (List.length (filter (fun x => f x && p x) l) +
   List.length (filter (fun x => f x && negb (p x)) l))%nat.
Proof.
  induction l as [|x l IH]; [reflexivity|]; simpl.
  destruct (f x), (p x); simpl; lia.
Qed.

Lemma group_entry_spec (key : db_row -> option string) (rows : list db_row)
  (k : option string) (c : counts) :
  In (k, c) (group_by key rows) ->
  c_total c = (c_pass c + c_fail c)%nat /\ (1 <= c_total c)%nat.
Proof.
  intros Hin.
  destruct (group_by_spec key rows) as (_ & Hkeys & Hc & _).
  destruct (Hc k c Hin) as (E1 & E2 & E3).
  split.
  - rewrite E1, E2, E3; apply filter_split.
  - assert (Hk : In k (map fst (group_by key rows)))
      by (apply in_map_iff; exists (k, c); split; [reflexivity | exact Hin]).
    apply Hkeys in Hk as (r & Hr & Ekr).
    rewrite E1.
    assert (Hf : In r (filter (fun r => opt_str_eqb (key r) k) rows))
      by (apply filter_In; split; [exact Hr | apply opt_str_eqb_spec; exact Ekr]).
    destruct (filter _ rows); [destruct Hf | simpl; lia].
Qed.

Lemma rate_spec (p t : nat) :
  (p <= t)%nat -> (0 < t)%nat ->
  0 <= INR p / INR t * 100 <= 100 /\
  (INR p / INR t * 100 = 100 <-> p = t) /\
  (INR p / INR t * 100 = 0 <-> p = 0%nat).
Proof.
  intros Hpt Ht.
  apply le_INR in Hpt; apply lt_0_INR in Ht.
  assert (Hp : 0 <= INR p) by apply pos_INR.
  assert (E : INR p / INR t * 100 * INR t = 100 * INR p) by (field; lra).
  split; [split|split].
  - unfold Rdiv; apply Rmult_le_pos; [|lra].
    apply Rmult_le_pos; [lra | left; apply Rinv_0_lt_compat; lra].
  - apply (Rmult_le_reg_r (INR t)); [lra|]; rewrite E; lra.
  - split.
    + intros H; apply INR_eq.
      assert (H' : INR p / INR t * 100 * INR t = 100 * INR t) by (rewrite H; reflexivity).
      rewrite E in H'; lra.
    + intros ->; field; lra.
  - split.
    + intros H; apply INR_eq; simpl.
      assert (H' : INR p / INR t * 100 * INR t = 0) by (rewrite H; lra).
      rewrite E in H'; lra.
    + intros ->; simpl; unfold Rdiv; lra.
Qed.

Lemma Reqb_spec (x y : R) : Reqb x y = true <-> x = y.
Proof.
  unfold Reqb; destruct (Req_dec_T x y); split; congruence.
Qed.

Lemma param_values_In (get : db_row -> option R) (rows : list db_row) (v : R) :
  In v (param_values get rows) <-> exists r, In r rows /\ get r = Some v /\ v <> 0.
Proof.
  induction rows as [|r rows IH]; simpl.
  - split; [intros []|intros (r & [] & _)].
  - destruct (get r) as [w|] eqn:Eg.
    + destruct (Reqb w 0) eqn:Ew.
      * apply Reqb_spec in Ew; subst w.
        rewrite IH; split.
        -- intros (r' & Hr' & E & Hv); exists r'; split; [right; exact Hr'|split; assumption].
        -- intros (r' & [<-|Hr'] & E & Hv); [rewrite Eg in E; injection E as <-; lra|].
           exists r'; split; [exact Hr'|split; assumption].
      * assert (Hw : w <> 0) by (intros E; apply Reqb_spec in E; congruence).
        simpl; rewrite IH; split.
        -- intros [<-|(r' & Hr' & E & Hv)].
           ++ exists r; split; [left; reflexivity|split; [exact Eg | exact Hw]].
           ++ exists r'; split; [right; exact Hr'|split; assumption].
        -- intros (r' & [<-|Hr'] & E & Hv).
           ++ left; rewrite Eg in E; injection E as <-; reflexivity.
           ++ right; exists r'; split; [exact Hr'|split; assumption].
    + rewrite IH; split.
      * intros (r' & Hr' & E & Hv); exists r'; split; [right; exact Hr'|split; assumption].
      * intros (r' & [<-|Hr'] & E & Hv); [congruence|].
        exists r'; split; [exact Hr'|split; assumption].
Qed.

Lemma param_summary_spec (vs : list R) :
  (vs = [] -> param_summary vs = mk_param_stats 0 0 0 0) /\
  (vs <> [] -> is_min vs (p_min (param_summary vs)) /\ is_max vs (p_max (param_summary vs))).
Proof.
  split; [intros ->; reflexivity|].
  intros Hne; destruct vs as [|x xs]; [congruence|].
  unfold param_summary, py_min, py_max; cbn [p_min p_max].
  destruct (fold_min_spec xs x) as (Hm1 & Hm2 & Hm3).
  destruct (fold_max_spec xs x) as (HM1 & HM2 & HM3).
  split.
  - split; [destruct Hm1 as [->|Hm1]; [left; reflexivity | right; exact Hm1]|].
    intros y [<-|Hy]; [exact Hm2 | apply Hm3; exact Hy].
  - split; [destruct HM1 as [->|HM1]; [left; reflexivity | right; exact HM1]|].
    intros y [<-|Hy]; [exact HM2 | apply HM3; exact Hy].
Qed.

(** X11: [get_analytics_summary] returns [{}] exactly when there is no
    result; otherwise [total_tests] is the number of results, [pass_count]
    the number whose [pass_fail] is ['pass'], [pass_count + fail_count =
    total_tests], the pass rate is a percentage that is 100 exactly when no
    result failed, and the recent tests are among the results with a recent
    pass rate that is a percentage too. *)
Theorem analytics_summary_counts (rows : list db_row) (today : Z) :
  (get_analytics_summary rows today = None <-> rows = []) /\
  forall s, get_analytics_summary rows today = Some s ->
    total_tests s = List.length rows /\
    pass_count s = List.length (filter is_pass rows) /\
    (pass_count s + fail_count s)%nat = total_tests s /\
    0 <= pass_rate s <= 100 /\
    (pass_rate s = 100 <-> fail_count s = 0%nat) /\
    (recent_tests s <= total_tests s)%nat /\
    0 <= recent_pass_rate s <= 100.
Proof.
  split.
  - destruct rows; simpl; split; congruence.
  - intros s Hs.
    destruct rows as [|r0 rs] eqn:Er; [discriminate|].
    rewrite <- Er in Hs |- *.
    unfold get_analytics_summary in Hs; rewrite Er in Hs; rewrite <- Er in Hs.
    injection Hs as <-; cbn [total_tests pass_count fail_count pass_rate
                             recent_pass_rate recent_tests].
    assert (Ht : (0 < List.length rows)%nat) by (rewrite Er; simpl; lia).
    assert (Hp : (List.length (filter is_pass rows) <= List.length rows)%nat)
      by apply filter_length_le.
    replace ((0 <? List.length rows)%nat) with true by (symmetry; apply Nat.ltb_lt; exact Ht).
    destruct (rate_spec _ _ Hp Ht) as (Hr1 & Hr2 & _).
    split; [reflexivity|]; split; [reflexivity|]; split; [lia|].
    split; [exact Hr1|]; split; [rewrite Hr2; lia|].
    split; [apply filter_length_le|].
    match goal with
    | |- context [match ?l with [] => 0 | _ :: _ => _ end] =>
        destruct l as [|x xs] eqn:El; [lra|]; rewrite <- El
    end.
    apply rate_spec; [apply filter_length_le | rewrite El; simpl; lia].
Qed.

(** X12: in each of the three groupings of [get_analytics_summary] (test
    type, tester, test bench) every key appears once, the keys are exactly
    those of the results, each group counts the results with its key and,
    among them, those that passed, with [total = pass + fail]; the group
    totals add up to [total_tests] and the group passes to [pass_count]. *)
Theorem analytics_groups (rows : list db_row) (today : Z) (s : summary) :
  get_analytics_summary rows today = Some s ->
  forall key groups,
    In (key, groups) [(fun r => Some (r_test_type r), test_types s);
                      (r_tester_id, testers s); (r_test_bench, test_benches s)] ->
    NoDup (map fst groups) /\
    (forall k, In k (map fst groups) <-> exists r, In r rows /\ key r = k) /\
    (forall k c, In (k, c) groups ->
       c_total c = List.length (filter (fun r => opt_str_eqb (key r) k) rows) /\
       c_pass c = List.length (filter (fun r => opt_str_eqb (key r) k && is_pass r) rows) /\
       c_total c = (c_pass c + c_fail c)%nat) /\
    list_sum (map (fun kc => c_total (snd kc)) groups) = total_tests s /\
    list_sum (map (fun kc => c_pass (snd kc)) groups) = pass_count s.
Proof.
  intros Hs key groups Hin.
  unfold get_analytics_summary in Hs.
  destruct rows as [|r0 rs] eqn:Er; [discriminate|]; rewrite <- Er in Hs |- *.
  injection Hs as <-.
  cbn [test_types testers test_benches total_tests pass_count] in *.
  assert (Hgen : forall key,
    NoDup (map fst (group_by key rows)) /\
    (forall k, In k (map fst (group_by key rows)) <-> exists r, In r rows /\ key r = k) /\
    (forall k c, In (k, c) (group_by key rows) ->
       c_total c = List.length (filter (fun r => opt_str_eqb (key r) k) rows) /\
       c_pass c = List.length (filter (fun r => opt_str_eqb (key r) k && is_pass r) rows) /\
       c_total c = (c_pass c + c_fail c)%nat) /\
    list_sum (map (fun kc => c_total (snd kc)) (group_by key rows)) = List.length rows /\
    list_sum (map (fun kc => c_pass (snd kc)) (group_by key rows)) =
      List.length (filter is_pass rows)).
  { intros key'.
    destruct (group_by_spec key' rows) as (H1 & H2 & H3 & H4 & H5).
    split; [exact H1|]; split; [exact H2|]; split; [|split; [exact H4 | exact H5]].
    intros k c Hkc.
    destruct (H3 k c Hkc) as (E1 & E2 & _).
    split; [exact E1|]; split; [exact E2|].
    apply (group_entry_spec key' rows k c Hkc). }
  cbn in Hin; destruct Hin as [E|[E|[E|[]]]]; injection E as <- <-; apply Hgen.
Qed.

(** X13: the peak-to-peak, trigger current and noise statistics of
    [get_analytics_summary] are taken over the stored values that are neither
    [NULL] nor zero; with no such value they are all 0, otherwise the minimum
    and the maximum are among them and bound every one. *)
Theorem analytics_parameters (rows : list db_row) (today : Z) (s : summary) :
  get_analytics_summary rows today = Some s ->
  forall get st,
    In (get, st) [(r_peak_to_peak_mv, peak_to_peak_stats s);
                  (r_trigger_current_a, trigger_current_stats s);
                  (r_noise_mv, noise_stats s)] ->
    (forall v, In v (param_values get rows) <->
       exists r, In r rows /\ get r = Some v /\ v <> 0) /\
    (param_values get rows = [] -> st = mk_param_stats 0 0 0 0) /\
    (param_values get rows <> [] ->
       is_min (param_values get rows) (p_min st) /\
       is_max (param_values get rows) (p_max st)).
Proof.
  intros Hs get st Hin.
  unfold get_analytics_summary in Hs.
  destruct rows as [|r0 rs] eqn:Er; [discriminate|]; rewrite <- Er in Hs |- *.
  injection Hs as <-.
  cbn in Hin; destruct Hin as [E|[E|[E|[]]]]; injection E as <- <-;
    (split; [intros v; apply param_values_In|]);
    apply param_summary_spec.
Qed.

Lemma breakdown_rows_spec (category : string) (key : db_row -> option string)
  (rows : list db_row) (b : breakdown_row) :
  In b (breakdown_rows category (group_by key rows)) ->
  b_category b = category /\ In (b_name b) (map key rows) /\
  b_total b = (b_pass b + b_fail b)%nat /\ (1 <= b_total b)%nat.
Proof.
  unfold breakdown_rows; intros Hb.
  apply in_map_iff in Hb as ([k c] & <- & Hkc).
  cbn [b_category b_name b_total b_pass b_fail fst snd].
  destruct (group_entry_spec key rows k c Hkc) as (E & H1).
  split; [reflexivity|]; split; [|split; [exact E | exact H1]].
  destruct (group_by_spec key rows) as (_ & Hkeys & _).
  assert (Hk : In k (map fst (group_by key rows)))
    by (apply in_map_iff; exists (k, c); split; [reflexivity | exact Hkc]).
  apply Hkeys in Hk as (r & Hr & Ekr).
  apply in_map_iff; exists r; split; [exact Ekr | exact Hr].
Qed.

(** X14: the breakdown table of [update_analytics] has one row per test
    type, tester and test bench of the summary; every row is in one of the
    three categories, named by a value of that column among the results,
    and has [Total = Pass + Fail] and [Total >= 1]. *)
Theorem breakdown_rows_consistent (rows : list db_row) (today : Z) (s : summary) :
  get_analytics_summary rows today = Some s ->
  List.length (breakdown_data s) =
    (List.length (test_types s) + List.length (testers s) + List.length (test_benches s))%nat /\
  forall b, In b (breakdown_data s) ->
    ((b_category b = "Test Type" /\ In (b_name b) (map (fun r => Some (r_test_type r)) rows)) \/
     (b_category b = "Tester" /\ In (b_name b) (map r_tester_id rows)) \/
     (b_category b = "Test Bench" /\ In (b_name b) (map r_test_bench rows))) /\
    b_total b = (b_pass b + b_fail b)%nat /\ (1 <= b_total b)%nat.
Proof.
  intros Hs.
  split.
  - unfold breakdown_data, breakdown_rows; rewrite !length_app, !length_map; lia.
  - unfold get_analytics_summary in Hs.
    destruct rows as [|r0 rs] eqn:Er; [discriminate|]; rewrite <- Er in Hs |- *.
    injection Hs as <-.
    unfold breakdown_data; cbn [test_types testers test_benches].
    intros b Hb; rewrite !in_app_iff in Hb.
    destruct Hb as [Hb|[Hb|Hb]]; apply breakdown_rows_spec in Hb as (Ec & Hn & Ht & H1);
      (split; [|split; assumption]).
    + left; split; assumption.
    + right; left; split; assumption.
    + right; right; split; assumption.
Qed.

(** ** Examples *)

Lemma save_request_values_witness :
  exists row, save_analysis_gui example_gui 0 0 = SaveRequest "DC02" row /\
  exists a cfg,
    current_analysis example_gui = Some a /\ "DC02" = test_type_text example_gui /\
    config_lookup "DC02" = Some cfg /\
    strip (test_number_text example_gui) <> "" /\ strip (test_bench_text example_gui) <> "" /\
    strip (tester_id_text example_gui) <> "" /\
    assoc_str "test_number" row = Some (VText (test_number_text example_gui)) /\
    assoc_str "test_bench" row = Some (VText (test_bench_text example_gui)) /\
    assoc_str "tester_id" row = Some (VText (tester_id_text example_gui)) /\
    assoc_str "test_date" row = Some (VDate 0) /\
    (cfg_has_ringdown cfg = true <-> "DC02" = "DC02") /\
    ((assoc_str "pass_fail" row = Some (VText "pass") /\
      overall (evaluate_pass_fail (Some a) (gui_criteria example_gui)
                 (cfg_has_ringdown cfg)) = Pass) \/
     (assoc_str "pass_fail" row = Some (VText "fail") /\
      overall (evaluate_pass_fail (Some a) (gui_criteria example_gui)
                 (cfg_has_ringdown cfg)) = Fail)) /\
    (In "ringdown_voltage_mv" (map fst row) <-> "DC02" = "DC02") /\
    (In "ringdown_lsl" (map fst row) <-> "DC02" = "DC02") /\
    (In "ringdown_usl" (map fst row) <-> "DC02" = "DC02") /\
    (In "skid_plate_diameter" (map fst row) <-> "DC02" = "IDOD").
Proof.
  eexists; split; [reflexivity|].
  apply (save_request_values example_gui 0 0 "DC02"); reflexivity.
Defined.

Lemma save_request_schema_witness :
  exists row, save_analysis_gui example_gui 0 0 = SaveRequest "DC02" row /\
  NoDup (map fst row) /\
  List.length (snd (db_insert "DC02" row)) = List.length (map fst row) /\
  py_count "%s" (fst (db_insert "DC02" row)) = List.length (snd (db_insert "DC02" row)) /\
  py_count "%" (fst (db_insert "DC02" row)) = List.length (snd (db_insert "DC02" row)) /\
  exists cols, schema_columns (table_name "DC02") = Some cols /\
    (forall k, In k (map fst row) -> In k (map fst cols)) /\
    (forall k, In (k, true) cols -> In k (map fst row)).
Proof.
  eexists; split; [reflexivity|].
  apply (save_request_schema example_gui 0 0 "DC02"); reflexivity.
Defined.

Lemma analytics_groups_witness :
  exists s, get_analytics_summary example_rows 100 = Some s /\
  forall key groups,
    In (key, groups) [(fun r => Some (r_test_type r), test_types s);
                      (r_tester_id, testers s); (r_test_bench, test_benches s)] ->
    NoDup (map fst groups) /\
    (forall k, In k (map fst groups) <-> exists r, In r example_rows /\ key r = k) /\
    (forall k c, In (k, c) groups ->
       c_total c = List.length (filter (fun r => opt_str_eqb (key r) k) example_rows) /\
       c_pass c = List.length (filter (fun r => opt_str_eqb (key r) k && is_pass r)
                                 example_rows) /\
       c_total c = (c_pass c + c_fail c)%nat) /\
    list_sum (map (fun kc => c_total (snd kc)) groups) = total_tests s /\
    list_sum (map (fun kc => c_pass (snd kc)) groups) = pass_count s.
Proof.
  eexists; split; [reflexivity|].
  apply (analytics_groups example_rows 100); reflexivity.
Defined.

Lemma analytics_parameters_witness :
  exists s, get_analytics_summary example_rows 100 = Some s /\
  forall get st,
    In (get, st) [(r_peak_to_peak_mv, peak_to_peak_stats s);
                  (r_trigger_current_a, trigger_current_stats s);
                  (r_noise_mv, noise_stats s)] ->
    (forall v, In v (param_values get example_rows) <->
       exists r, In r example_rows /\ get r = Some v /\ v <> 0) /\
    (param_values get example_rows = [] -> st = mk_param_stats 0 0 0 0) /\
    (param_values get example_rows <> [] ->
       is_min (param_values get example_rows) (p_min st) /\
       is_max (param_values get example_rows) (p_max st)).
Proof.
  eexists; split; [reflexivity|].
  apply (analytics_parameters example_rows 100); reflexivity.
Defined.

Lemma breakdown_rows_consistent_witness :
  exists s, get_analytics_summary example_rows 100 = Some s /\
  List.length (breakdown_data s) =
    (List.length (test_types s) + List.length (testers s) + List.length (test_benches s))%nat /\
  forall b, In b (breakdown_data s) ->
    ((b_category b = "Test Type" /\
        In (b_name b) (map (fun r => Some (r_test_type r)) example_rows)) \/
     (b_category b = "Tester" /\ In (b_name b) (map r_tester_id example_rows)) \/
     (b_category b = "Test Bench" /\ In (b_name b) (map r_test_bench example_rows))) /\
    b_total b = (b_pass b + b_fail b)%nat /\ (1 <= b_total b)%nat.
Proof.
  eexists; split; [reflexivity|].
  apply (breakdown_rows_consistent example_rows 100); reflexivity.
Defined.
